(** * mycli: the streaming completion pipeline and the REPL session

    A shallow embedding of
      - [mycli/ai/base.py]      (Message, CompletionResponse),
      - [mycli/ai/openai.py]    (OpenAIService: construction, [complete],
                                 [complete_stream]),
      - [mycli/core/agent.py]   (Agent.get_system_prompt, Agent.chat,
                                 AgentManager.get_agent),
      - [mycli/repl/__init__.py] (REPLSession: save_session, run,
                                 handle_command; start_repl),
    followed by the properties of the specification that concern them.

    Python objects are mutated in place and exceptions unwind the stack, so
    effectful code lives in a state-and-exception monad over an explicit
    world (recorded provider calls, log records, what [print] and the rich
    console wrote, the agents and sessions tables).  Strings are sequences
    of bytes: ASCII text, and UTF-8 for what lies beyond it; the string
    methods modelled ([strip], [split], [lower], [upper]) act on the ASCII
    range. *)

From Stdlib Require Import ZArith String Ascii List Bool Lia.
From stdpp Require Import base option gmap strings list.

Set Warnings "-register-all".

Open Scope string_scope.
Open Scope Z_scope.
Open Scope list_scope.

(* ===================================================================== *)
(** ** Python values, exceptions and string primitives *)
(* ===================================================================== *)

Module Py.

(** The values [json.loads] produces and a request payload carries.  A
    float keeps its decimal lexeme: the code only passes floats along.
    A dict keeps insertion order, as Python's does. *)
Inductive value : Type :=
| VNone
| VBool (b : bool)
| VInt (z : Z)
| VFloat (lexeme : string)
| VStr (s : string)
| VList (items : list value)
| VDict (entries : list (string * value)).

(** The exception classes the modelled code raises, catches or lets pass. *)
Inductive exn : Type :=
| HTTPStatusError (status : Z)       (* httpx.HTTPStatusError *)
| TransportError (detail : string)   (* httpx.TransportError: connect, read, timeout *)
| JSONDecodeError                    (* json.JSONDecodeError *)
| KeyError (key : value)
| IndexError
| TypeError
| AttributeError
| ValueError (msg : string)
| RuntimeError (msg : string)
| RecursionError                     (* a RuntimeError *)
| IntegrityError                     (* sqlalchemy.exc.IntegrityError *)
| MarkupError                        (* rich.errors.MarkupError *)
| EOFError
| KeyboardInterrupt
| SystemExit (code : Z).

(** [except Exception] catches everything but the two classes that derive
    from BaseException only. *)
Definition is_Exception (e : exn) : bool :=
  match e with
  | KeyboardInterrupt | SystemExit _ => false
  | _ => true
  end.

Inductive Result (A : Type) : Type :=
| Ok (a : A)
| Raise (e : exn).
Arguments Ok {A} a.
Arguments Raise {A} e.

#[global] Instance Result_ret : MRet Result := fun A a => Ok a.

#[global] Instance Result_bind : MBind Result := fun A B k r =>
  match r with
  | Ok a => k a
  | Raise e => Raise e
  end.

(** *** Strings *)

(** [str.isspace] on the ASCII range. *)
Definition isspace (c : ascii) : bool :=
  match c with
  | "009" | "010" | "011" | "012" | "013"
  | "028" | "029" | "030" | "031" | " " => true
  | _ => false
  end%char.

Fixpoint lstrip (s : string) : string :=
  match s with
  | String c r => if isspace c then lstrip r else s
  | EmptyString => EmptyString
  end.

(** [s.strip()] *)
Definition strip (s : string) : string :=
  String.rev (lstrip (String.rev (lstrip s))).

Fixpoint split_go (cur : option string) (s : string) : list string :=
  match s with
  | EmptyString => option_list (String.rev <$> cur)
  | String c r =>
      if isspace c
      then option_list (String.rev <$> cur) ++ split_go None r
      else split_go (Some (String c (default EmptyString cur))) r
  end.

(** [s.split()]: the maximal runs of non-whitespace characters. *)
Definition split (s : string) : list string := split_go None s.

Definition lower_char (c : ascii) : ascii :=
  let n := nat_of_ascii c in
  if (Nat.leb 65 n && Nat.leb n 90)%bool then ascii_of_nat (n + 32) else c.

(** [s.lower()] *)
Fixpoint lower (s : string) : string :=
  match s with
  | EmptyString => EmptyString
  | String c r => String (lower_char c) (lower r)
  end.

Definition upper_char (c : ascii) : ascii :=
  let n := nat_of_ascii c in
  if (Nat.leb 97 n && Nat.leb n 122)%bool then ascii_of_nat (n - 32) else c.

(** [s.upper()] *)
Fixpoint upper (s : string) : string :=
  match s with
  | EmptyString => EmptyString
  | String c r => String (upper_char c) (upper r)
  end.

(** [s.startswith(p)] *)
Definition startswith (s p : string) : bool := String.prefix p s.

(** [s[n:]] *)
Fixpoint drop_chars (n : nat) (s : string) : string :=
  match n, s with
  | O, _ => s
  | S n', String _ r => drop_chars n' r
  | S _, EmptyString => EmptyString
  end.

(** [needle in haystack] on strings *)
Definition str_contains (needle haystack : string) : bool :=
  match String.index 0 needle haystack with
  | Some _ => true
  | None => false
  end.

(** *** Subscription and membership on values *)

Fixpoint dict_get (k : string) (entries : list (string * value)) : option value :=
  match entries with
  | [] => None
  | (k', v) :: rest => if String.eqb k k' then Some v else dict_get k rest
  end.

(** [d[k] = v] on a dict: replaces in place or appends. *)
Fixpoint dict_set (k : string) (v : value) (entries : list (string * value))
  : list (string * value) :=
  match entries with
  | [] => [(k, v)]
  | (k', v') :: rest =>
      if String.eqb k k' then (k, v) :: rest else (k', v') :: dict_set k v rest
  end.

(** [v[k]] with a string key: only a dict accepts one. *)
Definition getitem (v : value) (k : string) : Result value :=
  match v with
  | VDict entries =>
      match dict_get k entries with
      | Some x => Ok x
      | None => Raise (KeyError (VStr k))
      end
  | _ => Raise TypeError
  end.

(** [v[0]]: a list or a string is indexed, a dict is looked up at the key
    [0] (absent from every decoded object, whose keys are strings), any
    other value is not subscriptable. *)
Definition getitem0 (v : value) : Result value :=
  match v with
  | VList (x :: _) => Ok x
  | VList [] => Raise IndexError
  | VStr (String c _) => Ok (VStr (String c EmptyString))
  | VStr EmptyString => Raise IndexError
  | VDict _ => Raise (KeyError (VInt 0))
  | _ => Raise TypeError
  end.

Definition is_str (k : string) (v : value) : bool :=
  match v with
  | VStr s => String.eqb k s
  | _ => false
  end.

(** [k in v] for a string [k]. *)
Definition contains (k : string) (v : value) : Result bool :=
  match v with
  | VDict entries => Ok (bool_decide (is_Some (dict_get k entries)))
  | VList items => Ok (existsb (is_str k) items)
  | VStr s => Ok (str_contains k s)
  | _ => Raise TypeError
  end.

(** [d.get(k)] on a dict: [None] when the key is absent. *)
Definition dict_get_default (entries : list (string * value)) (k : string) : value :=
  default VNone (dict_get k entries).

End Py.
Export Py.

(* ===================================================================== *)
(** ** The JSON decoder the client relies on *)
(* ===================================================================== *)

(** [json.loads] belongs to Python's standard library, not to this
    repository.  The properties below only use what it answers on a given
    text; this recursive-descent decoder of the JSON grammar makes the
    client executable on concrete response bodies.  Besides
    [JSONDecodeError] it raises what [json.loads] raises on a text of the
    grammar: [ValueError] on an integer literal of more than 4300 digits
    (the interpreter's limit on the conversion) and [RecursionError] on
    arrays and objects nested deeper than the interpreter lets calls nest
    (1000 by default; the frames already on the stack when [json.loads] is
    called are not counted here). *)
Module Json.

Definition quote : ascii := "034"%char.
Definition backslash : ascii := "092"%char.

(** [sys.get_int_max_str_digits()] and [sys.getrecursionlimit()] *)
Definition int_max_str_digits : nat := 4300.
Definition recursion_limit : nat := 1000.

Definition is_ws (c : ascii) : bool :=
  match c with
  | " " | "009" | "010" | "013" => true
  | _ => false
  end%char.

Fixpoint skip_ws (s : string) : string :=
  match s with
  | String c r => if is_ws c then skip_ws r else s
  | EmptyString => EmptyString
  end.

Definition is_digit (c : ascii) : bool :=
  let n := nat_of_ascii c in (Nat.leb 48 n && Nat.leb n 57)%bool.

Fixpoint span_digits (s : string) : string * string :=
  match s with
  | String c r =>
      if is_digit c then let '(ds, r') := span_digits r in (String c ds, r')
      else (EmptyString, s)
  | EmptyString => (EmptyString, EmptyString)
  end.

Fixpoint digits_value (acc : Z) (ds : string) : Z :=
  match ds with
  | String c r => digits_value (10 * acc + Z.of_nat (nat_of_ascii c - 48)) r
  | EmptyString => acc
  end.

(** The optional fraction [.ddd] of a number. *)
Definition scan_frac (s : string) : string * string :=
  match s with
  | String "." r =>
      match span_digits r with
      | (EmptyString, _) => (EmptyString, s)
      | (fs, r') => (String "." fs, r')
      end
  | _ => (EmptyString, s)
  end.

(** The optional exponent [e+dd] of a number. *)
Definition scan_exp (s : string) : string * string :=
  match s with
  | String e r =>
      if (Ascii.eqb e "e" || Ascii.eqb e "E")%bool then
        let '(sign, r1) :=
          match r with
          | String "+" r1 => ("+", r1)
          | String "-" r1 => ("-", r1)
          | _ => (EmptyString, r)
          end in
        match span_digits r1 with
        | (EmptyString, _) => (EmptyString, s)
        | (ds, r2) => (String e (sign +:+ ds), r2)
        end
      else (EmptyString, s)
  | EmptyString => (EmptyString, s)
  end.

(** A number at the head of [s]: an optional minus sign, an integer part
    (a lone zero, or digits that start with a non-zero one), an optional
    fraction and an optional exponent.  Without fraction and exponent it
    is an [int], which [int()] refuses to convert beyond its digit limit;
    otherwise a [float]. *)
Definition scan_number (s : string) : Result (value * string) :=
  let '(neg, s1) :=
    match s with
    | String "-" r => (true, r)
    | _ => (false, s)
    end in
  match span_digits s1 with
  | (EmptyString, _) => Raise JSONDecodeError
  | (String d ds, s2) =>
      let '(ip, s3) :=
        if Ascii.eqb d "0" then (String d EmptyString, ds +:+ s2)
        else (String d ds, s2) in
      let '(fp, s4) := scan_frac s3 in
      let '(ep, s5) := scan_exp s4 in
      let sign := if neg then "-" else EmptyString in
      match fp, ep with
      | EmptyString, EmptyString =>
          if Nat.ltb int_max_str_digits (String.length ip)
          then Raise (ValueError
                        "Exceeds the limit (4300 digits) for integer string conversion")
          else Ok (VInt (if neg then - digits_value 0 ip else digits_value 0 ip), s5)
      | _, _ => Ok (VFloat (sign +:+ ip +:+ fp +:+ ep), s5)
      end
  end.

Definition hex_digit (c : ascii) : option Z :=
  let n := nat_of_ascii c in
  if (Nat.leb 48 n && Nat.leb n 57)%bool then Some (Z.of_nat (n - 48))
  else if (Nat.leb 65 n && Nat.leb n 70)%bool then Some (Z.of_nat (n - 55))
  else if (Nat.leb 97 n && Nat.leb n 102)%bool then Some (Z.of_nat (n - 87))
  else None.

(** The code unit of a [\uXXXX] escape. *)
Definition hex4 (a b c d : ascii) : option Z :=
  a' ← hex_digit a; b' ← hex_digit b; c' ← hex_digit c; d' ← hex_digit d;
  Some (((a' * 16 + b') * 16 + c') * 16 + d').

Definition byte (n : Z) : ascii := ascii_of_nat (Z.to_nat n).

(** A code point as the bytes of its UTF-8 form (a lone surrogate, which
    [json.loads] lets through, in the three-byte form). *)
Definition utf8 (n : Z) : string :=
  if n <? 128 then String (byte n) EmptyString
  else if n <? 2048 then
    String (byte (192 + n / 64)) (String (byte (128 + n mod 64)) EmptyString)
  else if n <? 65536 then
    String (byte (224 + n / 4096))
      (String (byte (128 + (n / 64) mod 64)) (String (byte (128 + n mod 64)) EmptyString))
  else
    String (byte (240 + n / 262144))
      (String (byte (128 + (n / 4096) mod 64))
         (String (byte (128 + (n / 64) mod 64))
            (String (byte (128 + n mod 64)) EmptyString))).

Definition is_high_surrogate (n : Z) : bool := (55296 <=? n) && (n <=? 56319).
Definition is_low_surrogate (n : Z) : bool := (56320 <=? n) && (n <=? 57343).

(** [text] in front of the reversed prefix [acc]. *)
Definition push (text acc : string) : string := String.rev text +:+ acc.

(** The characters of a string literal after its opening quote, up to the
    closing one; [acc] holds the decoded prefix, reversed.  A high
    surrogate followed by the escape of a low one is the code point of the
    pair. *)
Fixpoint scan_chars (s : string) (acc : string) : option (string * string) :=
  match s with
  | EmptyString => None
  | String c r =>
      if Ascii.eqb c quote then Some (String.rev acc, r)
      else if Ascii.eqb c backslash then
        match r with
        | String e r' =>
            if Ascii.eqb e quote then scan_chars r' (String quote acc)
            else if Ascii.eqb e backslash then scan_chars r' (String backslash acc)
            else if Ascii.eqb e "/" then scan_chars r' (String "/" acc)
            else if Ascii.eqb e "b" then scan_chars r' (String "008" acc)
            else if Ascii.eqb e "f" then scan_chars r' (String "012" acc)
            else if Ascii.eqb e "n" then scan_chars r' (String "010" acc)
            else if Ascii.eqb e "r" then scan_chars r' (String "013" acc)
            else if Ascii.eqb e "t" then scan_chars r' (String "009" acc)
            else if Ascii.eqb e "u" then
              match r' with
              | String h1 (String h2 (String h3 (String h4 r''))) =>
                  match hex4 h1 h2 h3 h4 with
                  | Some u =>
                      match r'' with
                      | String b (String "u"
                          (String l1 (String l2 (String l3 (String l4 r3))))) =>
                          if (is_high_surrogate u && Ascii.eqb b backslash)%bool then
                            match hex4 l1 l2 l3 l4 with
                            | Some u2 =>
                                if is_low_surrogate u2
                                then scan_chars r3
                                       (push (utf8 (65536 + (u - 55296) * 1024
                                                    + (u2 - 56320))) acc)
                                else scan_chars r'' (push (utf8 u) acc)
                            | None => None
                            end
                          else scan_chars r'' (push (utf8 u) acc)
                      | _ => scan_chars r'' (push (utf8 u) acc)
                      end
                  | None => None
                  end
              | _ => None
              end
            else None
        | EmptyString => None
        end
      else if Nat.ltb (nat_of_ascii c) 32 then None
      else scan_chars r (String c acc)
  end.

(** The constants [json] accepts besides the grammar's. *)
Definition scan_constant (s : string) : option (value * string) :=
  if String.prefix "null" s then Some (VNone, drop_chars 4 s)
  else if String.prefix "true" s then Some (VBool true, drop_chars 4 s)
  else if String.prefix "false" s then Some (VBool false, drop_chars 5 s)
  else if String.prefix "NaN" s then Some (VFloat "NaN", drop_chars 3 s)
  else if String.prefix "Infinity" s then Some (VFloat "Infinity", drop_chars 8 s)
  else if String.prefix "-Infinity" s then Some (VFloat "-Infinity", drop_chars 9 s)
  else None.

(** One value at the head of [s] (no leading white space), [depth] arrays
    and objects deep.  [fuel] bounds the descent. *)
Fixpoint scan_value (fuel depth : nat) (s : string) {struct fuel}
  : Result (value * string) :=
  match fuel with
  | O => Raise JSONDecodeError
  | S f =>
      match s with
      | String c r =>
          if Ascii.eqb c quote then
            match scan_chars r EmptyString with
            | Some (str, r') => Ok (VStr str, r')
            | None => Raise JSONDecodeError
            end
          else if Ascii.eqb c "[" then
            if Nat.leb recursion_limit depth then Raise RecursionError
            else
              match skip_ws r with
              | String "]" r' => Ok (VList [], r')
              | r' => scan_items f (S depth) r' []
              end
          else if Ascii.eqb c "{" then
            if Nat.leb recursion_limit depth then Raise RecursionError
            else
              match skip_ws r with
              | String "}" r' => Ok (VDict [], r')
              | r' => scan_members f (S depth) r' []
              end
          else
            match scan_constant s with
            | Some res => Ok res
            | None => scan_number s
            end
      | EmptyString => Raise JSONDecodeError
      end
  end
with scan_items (fuel depth : nat) (s : string) (acc : list value) {struct fuel}
  : Result (value * string) :=
  match fuel with
  | O => Raise JSONDecodeError
  | S f =>
      '(v, r) ← scan_value f depth s;
      match skip_ws r with
      | String "," r' => scan_items f depth (skip_ws r') (v :: acc)
      | String "]" r' => Ok (VList (rev (v :: acc)), r')
      | _ => Raise JSONDecodeError
      end
  end
with scan_members (fuel depth : nat) (s : string) (acc : list (string * value))
    {struct fuel} : Result (value * string) :=
  match fuel with
  | O => Raise JSONDecodeError
  | S f =>
      match s with
      | String c r =>
          if Ascii.eqb c quote then
            match scan_chars r EmptyString with
            | Some (k, r1) =>
                match skip_ws r1 with
                | String ":" r2 =>
                    '(v, r3) ← scan_value f depth (skip_ws r2);
                    match skip_ws r3 with
                    | String "," r4 => scan_members f depth (skip_ws r4) (dict_set k v acc)
                    | String "}" r4 => Ok (VDict (dict_set k v acc), r4)
                    | _ => Raise JSONDecodeError
                    end
                | _ => Raise JSONDecodeError
                end
            | None => Raise JSONDecodeError
            end
          else Raise JSONDecodeError
      | EmptyString => Raise JSONDecodeError
      end
  end.

(** [json.loads(text)] *)
Definition loads (text : string) : Result value :=
  '(v, r) ← scan_value (2 * String.length text + 2) 0 (skip_ws text);
  match skip_ws r with
  | EmptyString => Ok v
  | _ => Raise JSONDecodeError
  end.

(** Writes a text with ['] where the JSON text has its double quote. *)
Fixpoint dq (s : string) : string :=
  match s with
  | String c r => String (if Ascii.eqb c "'" then quote else c) (dq r)
  | EmptyString => EmptyString
  end.

End Json.

(* ===================================================================== *)
(** ** Console markup *)
(* ===================================================================== *)

(** [rich.console.Console.print] renders the console markup of the text
    it is given and raises [MarkupError] when a closing tag closes nothing.
    rich is a library, not part of this repository: whether a text renders
    is a parameter of the world ([World.rich]), and the properties take it
    as given.  The renderer below is the one the concrete runs are given:
    the tag matching of [rich.markup.render], with tag names compared after
    [strip] and [lower] (rich normalises style names first, so that a style
    opened under one spelling can be closed under another) and without the
    evaluation of [@] handlers. *)
Module Rich.

(** The first character of a tag. *)
Definition tag_start (c : ascii) : bool :=
  let n := nat_of_ascii c in
  (Nat.leb 97 n && Nat.leb n 122) || Ascii.eqb c "#" || Ascii.eqb c "/"
  || Ascii.eqb c "@".

(** The text of a tag, from after its opening bracket up to the first
    closing bracket, and what follows; none when an opening bracket or the
    end of the text comes first. *)
Fixpoint tag_text (s acc : string) : option (string * string) :=
  match s with
  | EmptyString => None
  | String c r =>
      if Ascii.eqb c "]" then Some (String.rev acc, r)
      else if Ascii.eqb c "[" then None
      else tag_text r (String c acc)
  end.

(** The name of a tag: its text up to the first [=]. *)
Fixpoint tag_name (text : string) : string :=
  match text with
  | EmptyString => EmptyString
  | String c r => if Ascii.eqb c "=" then EmptyString else String c (tag_name r)
  end.

Definition normalize (name : string) : string := lower (strip name).

(** [pop_style]: the open tags without the innermost one of the name. *)
Fixpoint pop_style (name : string) (stack : list string) : option (list string) :=
  match stack with
  | [] => None
  | top :: rest =>
      if String.eqb top name then Some rest else (cons top) <$> pop_style name rest
  end.

(** What a tag makes of the open tags; none when it closes nothing. *)
Definition apply_tag (text : string) (stack : list string) : option (list string) :=
  match tag_name text with
  | String "/" closing =>
      if String.eqb (strip closing) EmptyString
      then match stack with
           | [] => None
           | _ :: rest => Some rest
           end
      else pop_style (normalize (strip closing)) stack
  | name => Some (normalize name :: stack)
  end.

(** The scan for tags, left to right.  [escaped] tells whether an odd
    number of backslashes comes right before: the tag that follows is
    then text. *)
Fixpoint scan (fuel : nat) (s : string) (escaped : bool) (stack : list string) : bool :=
  match fuel with
  | O => true
  | S f =>
      match s with
      | EmptyString => true
      | String c r =>
          if Ascii.eqb c "092" then scan f r (negb escaped) stack
          else if Ascii.eqb c "[" then
            match r with
            | String c1 _ =>
                if tag_start c1 then
                  match tag_text r EmptyString with
                  | Some (text, rest) =>
                      if escaped then scan f rest false stack
                      else
                        match apply_tag text stack with
                        | Some stack' => scan f rest false stack'
                        | None => false
                        end
                  | None => scan f r false stack
                  end
                else scan f r false stack
            | EmptyString => true
            end
          else scan f r false stack
      end
  end.

Definition renders (markup : string) : bool :=
  scan (String.length markup) markup false [].

End Rich.

(* ===================================================================== *)
(** ** Data model, configuration and the world the program runs in *)
(* ===================================================================== *)

(** [mycli.ai.base.Message] (the optional metadata is never set). *)
Module Message.
Record t : Type := Build { role : string; content : string }.
End Message.

(** [mycli.ai.base.CompletionResponse]: the fields hold what the provider's
    record holds, [None] where it holds nothing. *)
Module CompletionResponse.
Record t : Type := Build {
  content : value;
  role : value;
  finish_reason : value;
  usage : value
}.
End CompletionResponse.

(** The settings of [mycli.config] the modelled code reads. *)
Module Config.
Record t : Type := Build {
  default_agent : string;          (* general.default_agent *)
  default_provider : string;       (* ai_service.default_provider *)
  default_model : string;          (* ai_service.default_model *)
  timeout : Z;                     (* ai_service.timeout *)
  max_retries : Z;                 (* ai_service.max_retries *)
  openai_api_key : option string;  (* ai_service.openai_api_key *)
  openai_base_url : option string; (* ai_service.openai_base_url *)
  auto_save : bool                 (* repl.auto_save *)
}.

(** The defaults the settings classes declare. *)
Definition defaults : t :=
  Build "default" "openai" "gpt-3.5-turbo" 60 3 None None true.

Definition with_api_key (key : string) (c : t) : t :=
  Build (default_agent c) (default_provider c) (default_model c) (timeout c)
        (max_retries c) (Some key) (openai_base_url c) (auto_save c).

Definition with_max_retries (n : Z) (c : t) : t :=
  Build (default_agent c) (default_provider c) (default_model c) (timeout c)
        n (openai_api_key c) (openai_base_url c) (auto_save c).

(** [Config.validate]: with the OpenAI provider by default, an API key
    must be there. *)
Definition validate (c : t) : bool :=
  if String.eqb (default_provider c) "openai"
  then match openai_api_key c with
       | Some key => negb (String.eqb key EmptyString)
       | None => false
       end
  else true.
End Config.

(** The provider as the HTTP client sees it. *)
Module Http.
Record Request : Type := BuildRequest {
  method : string;
  url : string;
  json : gmap string value
}.

Record Response : Type := BuildResponse {
  status_code : Z;
  lines : list string   (* the body, line by line *)
}.

(** What a request comes to: the client raises (connection refused, read
    timeout, an interrupt while waiting), or a response arrives. *)
Inductive Outcome : Type :=
| Fail (e : exn)
| Respond (r : Response).

(** [response.is_success] *)
Definition is_success (r : Response) : bool :=
  ((200 <=? status_code r) && (status_code r <=? 299))%Z.

(** [response.raise_for_status()] *)
Definition raise_for_status (r : Response) : Result unit :=
  if is_success r then Ok tt else Raise (HTTPStatusError (status_code r)).

(** [response.json()] *)
Definition json_body (r : Response) : Result value :=
  Json.loads (String.concat (String "010" EmptyString) (lines r)).
End Http.

(** Records of the module loggers. *)
Inductive LogRecord : Type :=
| LogApiError (attempt total : Z) (e : exn)    (* error: OpenAI API error (attempt a/n) *)
| LogUnexpected (attempt total : Z) (e : exn)  (* error: Unexpected error (attempt a/n) *)
| LogChunkWarning (e : exn)                    (* warning: Failed to parse streaming chunk *)
| LogSaveFailed (e : exn)                      (* error: Failed to save session *)
| LogReplError (e : exn).                      (* error: REPL error *)

(** A row of the [sessions] table ([mycli.storage.models.Session]); the
    table's primary key is [id]. *)
Module SessionModel.
Record t : Type := Build {
  id : string;
  title : string;
  agent_id : string;
  messages : list (string * string * string)   (* role, content, timestamp *)
}.
End SessionModel.

(** A row of the [agents] table ([mycli.storage.models.Agent]), with the
    entries of [config] the code reads. *)
Module AgentModel.
Record t : Type := Build {
  id : string;
  name : string;
  type : string;
  provider : option string;
  model : option string;
  temperature : option value;
  max_tokens : option Z;
  system_prompt : option string
}.
End AgentModel.

(** What the rich console printed, one entry for each call of
    [console.print]; [MsgWelcome] stands for the four lines of
    [print_welcome] and [MsgUnknownCommand] for the two lines of that
    branch. *)
Inductive ConsoleMsg : Type :=
| MsgCreatingDefault
| MsgWelcomeTitle                       (* the first line of [print_welcome] alone *)
| MsgWelcome (agent_name agent_type : string)
| MsgHelp
| MsgNoMessagesYet
| MsgHistoryTitle
| MsgHistoryRole (role : string)
| MsgHistoryContent (content : string)
| MsgNoMessagesToSave
| MsgSessionSaved (session_id : string)
| MsgSaveFailed (e : exn)
| MsgAssistant
| MsgBlank
| MsgInterruptHint
| MsgGoodbye
| MsgCleared
| MsgSwitched (agent_name : string)
| MsgAgentNotFound (agent_name : string)
| MsgCurrentAgent (agent_name agent_type : string)
| MsgUnknownCommand (cmd : string).

(** The texts with console markup into which the program interpolates a
    name, a command or a message, as the f-strings of
    [mycli/repl/__init__.py] build them. *)
Module Markup.

(** The check mark and the ballot cross, in UTF-8. *)
Definition check : string := String "226" (String "156" (String "147" EmptyString)).
Definition cross : string := String "226" (String "156" (String "151" EmptyString)).

Definition using_agent (name type : string) : string :=
  "Using agent: [green]" +:+ name +:+ "[/green] (" +:+ type +:+ ")".

Definition history_role (role : string) : string :=
  let role_color := if String.eqb role "user" then "cyan" else "green" in
  String "010" ("[" +:+ role_color +:+ "]" +:+ upper role +:+ ":[/" +:+ role_color +:+ "]").

Definition switched (name : string) : string :=
  "[green]" +:+ check +:+ "[/green] Switched to agent: " +:+ name.

Definition not_found (name : string) : string :=
  "[red]" +:+ cross +:+ "[/red] Agent '" +:+ name +:+ "' not found".

Definition current_agent (name type : string) : string :=
  "Current agent: [green]" +:+ name +:+ "[/green] (" +:+ type +:+ ")".

Definition unknown_command (cmd : string) : string :=
  "[red]Unknown command: " +:+ cmd +:+ "[/red]".

End Markup.

(** The interpolated text of a message, if it has one.  The other
    messages are fixed texts whose tags match, a Markdown document, or
    texts that interpolate a session identifier (a UUID: digits, letters
    and dashes) or the text of a database error, which is the database
    library's own and taken to render. *)
Definition markup_of (m : ConsoleMsg) : option string :=
  match m with
  | MsgWelcome name type => Some (Markup.using_agent name type)
  | MsgHistoryRole role => Some (Markup.history_role role)
  | MsgHistoryContent content => Some content
  | MsgSwitched name => Some (Markup.switched name)
  | MsgAgentNotFound name => Some (Markup.not_found name)
  | MsgCurrentAgent name type => Some (Markup.current_agent name type)
  | MsgUnknownCommand cmd => Some (Markup.unknown_command cmd)
  | _ => None
  end.

Module World.
Record t : Type := Build {
  config : Config.t;                        (* the global configuration *)
  provider : nat -> Http.Outcome;           (* what the i-th request comes to *)
  calls : list Http.Request;                (* the requests the provider recorded *)
  log : list LogRecord;
  stdout : list string;                     (* what the builtin [print] wrote *)
  console : list ConsoleMsg;                (* what the rich console wrote *)
  agents : list AgentModel.t;               (* the agents table *)
  sessions : gmap string SessionModel.t;    (* the sessions table, by primary key *)
  uuids : nat -> string;                    (* the identifiers [uuid4] draws *)
  uuid_count : nat;
  utcnow : string;                          (* the clock *)
  rich : string -> bool                     (* whether rich renders a markup text *)
}.

Definition set_calls (f : list Http.Request -> list Http.Request) (w : t) : t :=
  Build (config w) (provider w) (f (calls w)) (log w) (stdout w) (console w)
        (agents w) (sessions w) (uuids w) (uuid_count w) (utcnow w) (rich w).
Definition set_log (f : list LogRecord -> list LogRecord) (w : t) : t :=
  Build (config w) (provider w) (calls w) (f (log w)) (stdout w) (console w)
        (agents w) (sessions w) (uuids w) (uuid_count w) (utcnow w) (rich w).
Definition set_stdout (f : list string -> list string) (w : t) : t :=
  Build (config w) (provider w) (calls w) (log w) (f (stdout w)) (console w)
        (agents w) (sessions w) (uuids w) (uuid_count w) (utcnow w) (rich w).
Definition set_console (f : list ConsoleMsg -> list ConsoleMsg) (w : t) : t :=
  Build (config w) (provider w) (calls w) (log w) (stdout w) (f (console w))
        (agents w) (sessions w) (uuids w) (uuid_count w) (utcnow w) (rich w).
Definition set_agents (f : list AgentModel.t -> list AgentModel.t) (w : t) : t :=
  Build (config w) (provider w) (calls w) (log w) (stdout w) (console w)
        (f (agents w)) (sessions w) (uuids w) (uuid_count w) (utcnow w) (rich w).
Definition set_sessions (f : gmap string SessionModel.t -> gmap string SessionModel.t)
    (w : t) : t :=
  Build (config w) (provider w) (calls w) (log w) (stdout w) (console w)
        (agents w) (f (sessions w)) (uuids w) (uuid_count w) (utcnow w) (rich w).
Definition set_uuid_count (f : nat -> nat) (w : t) : t :=
  Build (config w) (provider w) (calls w) (log w) (stdout w) (console w)
        (agents w) (sessions w) (uuids w) (f (uuid_count w)) (utcnow w) (rich w).
End World.

(* ===================================================================== *)
(** ** The state-and-exception monad *)
(* ===================================================================== *)

(** A computation over a state [S] ends with a value or a raised exception;
    the state changes made before a [raise] stay. *)
Definition M (S A : Type) : Type := S -> Result A * S.

#[global] Instance M_ret {S} : MRet (M S) := fun A a s => (Ok a, s).

#[global] Instance M_bind {S} : MBind (M S) := fun A B k m s =>
  match m s with
  | (Ok a, s') => k a s'
  | (Raise e, s') => (Raise e, s')
  end.

Definition raise {S A} (e : exn) : M S A := fun s => (Raise e, s).

(** [try: m], handing the outcome to the handlers that follow. *)
Definition try {S A} (m : M S A) : M S (Result A) := fun s =>
  let '(r, s') := m s in (Ok r, s').

Definition of_result {S A} (r : Result A) : M S A := fun s => (r, s).

Definition modify {S} (f : S -> S) : M S unit := fun s => (Ok tt, f s).

Definition gets {S A} (f : S -> A) : M S A := fun s => (Ok (f s), s).

(** [logger.error(...)], [logger.warning(...)] *)
Definition logger (r : LogRecord) : M World.t unit :=
  modify (World.set_log (fun l => l ++ [r])).

(** [print(s, end="")] *)
Definition print (s : string) : M World.t unit :=
  modify (World.set_stdout (fun l => l ++ [s])).

(** The line feed [print()] writes. *)
Definition newline : string := String "010" EmptyString.

(** Whether the console renders a message. *)
Definition renders (w : World.t) (m : ConsoleMsg) : bool :=
  match markup_of m with
  | Some text => World.rich w text
  | None => true
  end.

(** [console.print(...)]: the text is rendered, which raises
    [MarkupError] when its markup does not render, and then written.  (The
    console writes to the process's standard output, as the builtin
    [print] does; the world keeps the two apart, each in its order.) *)
Definition console_print (m : ConsoleMsg) : M World.t unit := fun w =>
  if renders w m
  then (Ok tt, World.set_console (fun l => l ++ [m]) w)
  else (Raise MarkupError, w).


(** [range(n)] *)
Definition range (n : Z) : list Z := Z.of_nat <$> seq 0 (Z.to_nat n).

(** Truth of an optional string: [None] and the empty string are falsy. *)
Definition truthy_str (a : option string) : bool :=
  match a with
  | Some s => negb (String.eqb s EmptyString)
  | None => false
  end.

(** [a or b] where [b] may be [None] too. *)
Definition or_opt (a b : option string) : option string :=
  if truthy_str a then a else b.

(** [a or b] where [b] is a string. *)
Definition or_str (a : option string) (b : string) : string :=
  match a with
  | Some s => if String.eqb s EmptyString then b else s
  | None => b
  end.

(** [a or b] on integers: zero is falsy. *)
Definition or_int (a b : Z) : Z := if a =? 0 then b else a.

(* ===================================================================== *)
(** ** mycli/ai/openai.py *)
(* ===================================================================== *)

(** An asynchronous generator, as what it does each time it is resumed:
    finish, raise, hand out a chunk, or write a log record and go on. *)
Inductive Generator : Type :=
| Stop
| Throw (e : exn)
| Yield (chunk : value) (next : Generator)
| Log (r : LogRecord) (next : Generator).

(** [async for chunk in g: acc = body(acc, chunk)].  The generator runs
    only as far as the loop asks: once the body raises, nothing of the
    rest of [g] happens. *)
Fixpoint async_for {A} (g : Generator) (body : A -> value -> M World.t A) (acc : A)
  : M World.t A :=
  match g with
  | Stop => mret acc
  | Throw e => raise e
  | Yield chunk next => acc' ← body acc chunk; async_for next body acc'
  | Log r next => logger r;; async_for next body acc
  end.

Module OpenAIService.

Record t : Type := Build {
  api_key : string;
  base_url : string;
  timeout : Z;
  max_retries : Z;
  default_model : string
}.

(** [OpenAIService.__init__] *)
Definition init (api_key base_url : option string) (timeout max_retries : Z)
  : M World.t t :=
  config ← gets World.config;
  match or_opt api_key (Config.openai_api_key config) with
  | Some key =>
      if String.eqb key EmptyString
      then raise (ValueError "OpenAI API key not configured")
      else
        mret (Build key
                (or_str (or_opt base_url (Config.openai_base_url config))
                        "https://api.openai.com/v1")
                (or_int timeout (Config.timeout config))
                (or_int max_retries (Config.max_retries config))
                (Config.default_model config))
  | None => raise (ValueError "OpenAI API key not configured")
  end.

(** [OpenAIService()]: every argument at its default. *)
Definition init_default : M World.t t := init None None 60 3.

(** [self.client.post(url, json=payload)] and
    [self.client.stream("POST", url, json=payload)]: the provider records
    the request and answers it. *)
Definition send (url : string) (payload : gmap string value)
  : M World.t Http.Response := fun w =>
  let i := length (World.calls w) in
  let w' := World.set_calls (fun l => l ++ [Http.BuildRequest "POST" url payload]) w in
  match World.provider w i with
  | Http.Fail e => (Raise e, w')
  | Http.Respond r => (Ok r, w')
  end.

(** The messages in the provider's format. *)
Definition openai_messages (messages : list Message.t) : value :=
  VList ((fun msg => VDict [("role", VStr (Message.role msg));
                            ("content", VStr (Message.content msg))]) <$> messages).

(** The request payload.  [kwargs] goes last in the dict display and so
    takes precedence; [max_tokens] is set only when truthy. *)
Definition build_payload (stream : bool) (default_model : string)
    (messages : list Message.t) (model : option string) (temperature : value)
    (max_tokens : option Z) (kwargs : gmap string value) : gmap string value :=
  let fixed : gmap string value :=
    <["model" := VStr (or_str model default_model)]>
    (<["messages" := openai_messages messages]>
    (<["temperature" := temperature]>
    (if stream then {["stream" := VBool true]} else ∅))) in
  let payload := kwargs ∪ fixed in
  match max_tokens with
  | Some n => if n =? 0 then payload else <["max_tokens" := VInt n]> payload
  | None => payload
  end.

(** [v.get(k)] *)
Definition get (v : value) (k : string) : Result value :=
  match v with
  | VDict entries => Ok (dict_get_default entries k)
  | _ => Raise AttributeError
  end.

(** The response object built from the decoded body. *)
Definition extract (data : value) : Result CompletionResponse.t :=
  choices ← getitem data "choices";
  choice ← getitem0 choices;
  message ← getitem choice "message";
  content ← getitem message "content";
  message' ← getitem choice "message";
  role ← getitem message' "role";
  finish_reason ← get choice "finish_reason";
  usage ← get data "usage";
  Ok (CompletionResponse.Build content role finish_reason usage).

(** What a response comes to inside the [try] of [complete]. *)
Definition read_response (response : Http.Response) : Result CompletionResponse.t :=
  Http.raise_for_status response;;
  data ← Http.json_body response;
  extract data.

(** The body of the [try] in [complete]. *)
Definition attempt_request (payload : gmap string value)
  : M World.t CompletionResponse.t :=
  response ← send "/chat/completions" payload;
  of_result (read_response response).

(** [for attempt in range(self.max_retries): ...] followed by the
    [raise RuntimeError] after the loop. *)
Fixpoint retry_loop (self : t) (payload : gmap string value) (attempts : list Z)
  : M World.t CompletionResponse.t :=
  match attempts with
  | [] => raise (RuntimeError "Failed to complete request after retries")
  | attempt :: rest =>
      r ← try (attempt_request payload);
      match r with
      | Ok response => mret response
      | Raise (HTTPStatusError status) =>
          logger (LogApiError (attempt + 1) (max_retries self) (HTTPStatusError status));;
          if attempt =? max_retries self - 1
          then raise (HTTPStatusError status)
          else retry_loop self payload rest
      | Raise e =>
          if is_Exception e then
            logger (LogUnexpected (attempt + 1) (max_retries self) e);;
            if attempt =? max_retries self - 1
            then raise e
            else retry_loop self payload rest
          else raise e
      end
  end.

(** [OpenAIService.complete] *)
Definition complete (self : t) (messages : list Message.t) (model : option string)
    (temperature : value) (max_tokens : option Z) (kwargs : gmap string value)
  : M World.t CompletionResponse.t :=
  let payload :=
    build_payload false (default_model self) messages model temperature
                  max_tokens kwargs in
  retry_loop self payload (range (max_retries self)).

(** The exceptions the decoder's [except] clause names. *)
Definition decoder_catches (e : exn) : bool :=
  match e with
  | JSONDecodeError | KeyError _ | IndexError => true
  | _ => false
  end.

(** The [try] body of the decoder on a line that starts with the event
    prefix: the chunk to yield, if any. *)
Definition chunk_of (line : string) : Result (option value) :=
  data ← Json.loads (drop_chars 6 line);
  choices ← getitem data "choices";
  choice ← getitem0 choices;
  delta ← getitem choice "delta";
  has_content ← contains "content" delta;
  if has_content : bool
  then content ← getitem delta "content"; Ok (Some content)
  else Ok None.

(** The loop over [response.aiter_lines()]. *)
Fixpoint decode (lines : list string) : Generator :=
  match lines with
  | [] => Stop
  | line :: rest =>
      if (String.eqb line EmptyString || String.eqb line "data: [DONE]")%bool
      then decode rest
      else if startswith line "data: " then
        match chunk_of line with
        | Ok (Some content) => Yield content (decode rest)
        | Ok None => decode rest
        | Raise e =>
            if decoder_catches e
            then Log (LogChunkWarning e) (decode rest)
            else Throw e
        end
      else decode rest
  end.

(** [OpenAIService.complete_stream]: the request is sent and its status
    checked when the generator is first resumed, which the consuming
    loop does at once; the generator that remains decodes the body. *)
Definition complete_stream (self : t) (messages : list Message.t)
    (model : option string) (temperature : value) (max_tokens : option Z)
    (kwargs : gmap string value) : M World.t Generator :=
  let payload :=
    build_payload true (default_model self) messages model temperature
                  max_tokens kwargs in
  response ← send "/chat/completions" payload;
  of_result (Http.raise_for_status response);;
  mret (decode (Http.lines response)).

End OpenAIService.

(* ===================================================================== *)
(** ** mycli/core/agent.py *)
(* ===================================================================== *)

(** [DEFAULT_SYSTEM_PROMPTS] *)
Definition DEFAULT_SYSTEM_PROMPTS : gmap string string :=
  <["general" := "You are a helpful AI assistant."]>
  (<["developer" := "You are an expert software developer assistant, helping with coding, debugging, and software design."]>
  (<["devops" := "You are a DevOps expert, assisting with automation, deployment, monitoring, and system administration."]>
  (<["data_analyst" := "You are a data analysis expert, helping with data processing, analysis, and visualization."]>
  ∅))).

Module Agent.

(** The agent object.  Its service is built on first use and kept; the
    configuration it is built from does not change while the program
    runs, so the model builds it at each use. *)
Record t : Type := Build {
  id : string;
  name : string;
  type : string;
  provider : option string;
  model : option string;
  temperature : option value;
  max_tokens : option Z;
  system_prompt : option string
}.

(** [Agent.ai_service] *)
Definition ai_service (self : t) : M World.t OpenAIService.t :=
  config ← gets World.config;
  let provider := or_str (provider self) (Config.default_provider config) in
  if String.eqb provider "openai"
  then OpenAIService.init_default
  else raise (ValueError "Unsupported AI provider").

(** [Agent.get_system_prompt] *)
Definition get_system_prompt (self : t) : string :=
  match system_prompt self with
  | Some prompt => prompt
  | None =>
      default (default EmptyString (DEFAULT_SYSTEM_PROMPTS !! "general"))
              (DEFAULT_SYSTEM_PROMPTS !! type self)
  end.

(** The message list [chat] assembles; [history] is added when truthy. *)
Definition build_messages (self : t) (message : string)
    (history : option (list Message.t)) : list Message.t :=
  let messages := [Message.Build "system" (get_system_prompt self)] in
  let messages :=
    match history with
    | Some (m :: h) => messages ++ (m :: h)
    | _ => messages
    end in
  messages ++ [Message.Build "user" message].

(** The body of the streaming loop: [full_content += chunk] accepts a
    string only, then the chunk goes to standard output. *)
Definition stream_body (full_content : string) (chunk : value) : M World.t string :=
  match chunk with
  | VStr s => print s;; mret (full_content +:+ s)
  | _ => raise TypeError
  end.

(** The streaming branch of [chat]: the accumulated text. *)
Definition chat_stream (self : t) (message : string)
    (history : option (list Message.t)) : M World.t string :=
  let messages := build_messages self message history in
  let model := model self in
  let temperature := default (VFloat "0.7") (temperature self) in
  let max_tokens := max_tokens self in
  service ← ai_service self;
  chunks ← OpenAIService.complete_stream service messages model temperature
             max_tokens ∅;
  full_content ← async_for chunks stream_body EmptyString;
  print newline;;
  mret full_content.

(** The other branch of [chat]: the response's content. *)
Definition chat_complete (self : t) (message : string)
    (history : option (list Message.t)) : M World.t value :=
  let messages := build_messages self message history in
  let model := model self in
  let temperature := default (VFloat "0.7") (temperature self) in
  let max_tokens := max_tokens self in
  service ← ai_service self;
  response ← OpenAIService.complete service messages model temperature
               max_tokens ∅;
  mret (CompletionResponse.content response).

(** [Agent.chat] *)
Definition chat (self : t) (message : string) (history : option (list Message.t))
    (stream : bool) : M World.t value :=
  if stream
  then full_content ← chat_stream self message history; mret (VStr full_content)
  else chat_complete self message history.

End Agent.

Module AgentManager.

(** [AgentManager._model_to_agent] *)
Definition _model_to_agent (row : AgentModel.t) : Agent.t :=
  Agent.Build (AgentModel.id row) (AgentModel.name row) (AgentModel.type row)
              (AgentModel.provider row) (AgentModel.model row)
              (AgentModel.temperature row) (AgentModel.max_tokens row)
              (AgentModel.system_prompt row).

(** [uuid.uuid4()] as a string *)
Definition uuid4 : M World.t string := fun w =>
  (Ok (World.uuids w (World.uuid_count w)), World.set_uuid_count S w).

(** [AgentManager.get_agent]: the first row with the name, if any. *)
Definition get_agent (name : string) : M World.t (option Agent.t) :=
  rows ← gets World.agents;
  mret (_model_to_agent <$>
          List.find (fun row => String.eqb (AgentModel.name row) name) rows).

(** [AgentManager.create_agent] with a type and no configuration. *)
Definition create_agent (name type : string) : M World.t Agent.t :=
  existing ← get_agent name;
  match existing with
  | Some _ => raise (ValueError "Agent already exists")
  | None =>
      agent_id ← uuid4;
      let row := AgentModel.Build agent_id name type None None None None None in
      modify (World.set_agents (fun rows => rows ++ [row]));;
      mret (_model_to_agent row)
  end.

(** [AgentManager.delete_agent]: the first row with the name is looked up
    and, if there is one, deleted by its primary key. *)
Definition delete_agent (name : string) : M World.t bool :=
  rows ← gets World.agents;
  match List.find (fun row => String.eqb (AgentModel.name row) name) rows with
  | None => mret false
  | Some agent_model =>
      modify (World.set_agents
                (List.filter
                   (fun row => negb (String.eqb (AgentModel.id row)
                                                (AgentModel.id agent_model)))));;
      mret true
  end.

End AgentManager.

(* ===================================================================== *)
(** ** mycli/repl/__init__.py *)
(* ===================================================================== *)

(** What the prompt delivers: a line, or an interrupt typed at the prompt.
    When the inputs are used up the prompt raises [EOFError]. *)
Inductive Input : Type :=
| Line (text : string)
| Interrupt.

Module REPLSession.

(** The fields of the session object that change while it runs. *)
Record t : Type := Build {
  agent : Agent.t;
  session_id : string;
  messages : list Message.t
}.

(** The session object and the world around it. *)
Record State : Type := BuildState {
  self : t;
  world : World.t
}.

Definition lift {A} (m : M World.t A) : M State A := fun st =>
  let '(r, w) := m (world st) in (r, BuildState (self st) w).

Definition set_self (f : t -> t) : M State unit :=
  modify (fun st => BuildState (f (self st)) (world st)).

Definition set_messages (f : list Message.t -> list Message.t) : M State unit :=
  set_self (fun s => Build (agent s) (session_id s) (f (messages s))).

(** [REPLSession.__init__] *)
Definition init (agent_name : option string) : M World.t t :=
  config ← gets World.config;
  let agent_name := or_str agent_name (Config.default_agent config) in
  found ← AgentManager.get_agent agent_name;
  agent ← match found with
          | Some a => mret a
          | None =>
              if String.eqb agent_name "default"
              then console_print MsgCreatingDefault;;
                   AgentManager.create_agent "default" "general"
              else raise (ValueError "Agent not found")
          end;
  session_id ← AgentManager.uuid4;
  mret (Build agent session_id []).

(** [REPLSession.print_welcome]: four lines, of which the second
    interpolates the agent's name and type.  [MsgWelcome] records the
    four; when the second does not render, the first alone is out. *)
Definition print_welcome : M State unit :=
  s ← gets self;
  let welcome := MsgWelcome (Agent.name (agent s)) (Agent.type (agent s)) in
  rendered ← lift (gets (fun w => renders w welcome));
  if rendered : bool
  then lift (console_print welcome)
  else lift (console_print MsgWelcomeTitle);; raise MarkupError.

(** The loop of [print_history]: for each message a line with its role,
    then its content, printed as markup. *)
Fixpoint print_messages (transcript : list Message.t) : M World.t unit :=
  match transcript with
  | [] => mret tt
  | msg :: rest =>
      console_print (MsgHistoryRole (Message.role msg));;
      console_print (MsgHistoryContent (Message.content msg));;
      print_messages rest
  end.

(** [REPLSession.print_history] *)
Definition print_history : M State unit :=
  transcript ← gets (fun st => messages (self st));
  match transcript with
  | [] => lift (console_print MsgNoMessagesYet)
  | _ => lift (console_print MsgHistoryTitle);; lift (print_messages transcript)
  end.

(** [db_session.add(row); db_session.commit()] on the sessions table: an
    INSERT, which the table refuses when its primary key is taken. *)
Definition add_and_commit (row : SessionModel.t) : M World.t unit :=
  table ← gets World.sessions;
  match table !! SessionModel.id row with
  | Some _ => raise IntegrityError
  | None => modify (World.set_sessions (insert (SessionModel.id row) row))
  end.

(** [REPLSession.save_session] *)
Definition save_session : M State unit :=
  s ← gets self;
  match messages s with
  | [] => lift (console_print MsgNoMessagesToSave)
  | _ =>
      r ← try (
        now ← lift (gets World.utcnow);
        let messages_data :=
          (fun msg => (Message.role msg, Message.content msg, now)) <$> messages s in
        let session_model :=
          SessionModel.Build (session_id s) ("REPL Session - " +:+ now)
                             (Agent.id (agent s)) messages_data in
        lift (add_and_commit session_model);;
        lift (console_print (MsgSessionSaved (session_id s))));
      match r with
      | Ok _ => mret tt
      | Raise e =>
          if is_Exception e
          then lift (logger (LogSaveFailed e));; lift (console_print (MsgSaveFailed e))
          else raise e
      end
  end.

(** [if self.config.repl.auto_save and self.messages: self.save_session()] *)
Definition auto_save : M State unit :=
  config ← lift (gets World.config);
  transcript ← gets (fun st => messages (self st));
  if (Config.auto_save config && negb (bool_decide (transcript = [])))%bool
  then save_session
  else mret tt.

(** [REPLSession.handle_command] *)
Definition handle_command (command : string) : M State unit :=
  let parts := split command in
  match parts with
  | [] => raise IndexError
  | part0 :: args =>
      let cmd := lower part0 in
      if (String.eqb cmd "/exit" || String.eqb cmd "/quit")%bool then raise EOFError
      else if String.eqb cmd "/help" then lift (console_print MsgHelp)
      else if String.eqb cmd "/clear" then
        set_messages (fun _ => []);;
        lift (console_print MsgCleared)
      else if String.eqb cmd "/save" then save_session
      else if String.eqb cmd "/history" then print_history
      else if String.eqb cmd "/agent" then
        match args with
        | new_agent_name :: _ =>
            new_agent ← lift (AgentManager.get_agent new_agent_name);
            match new_agent with
            | Some a =>
                auto_save;;
                new_id ← lift AgentManager.uuid4;
                set_self (fun _ => Build a new_id []);;
                lift (console_print (MsgSwitched (Agent.name a)))
            | None => lift (console_print (MsgAgentNotFound new_agent_name))
            end
        | [] =>
            s ← gets self;
            lift (console_print
                    (MsgCurrentAgent (Agent.name (agent s)) (Agent.type (agent s))))
        end
      else lift (console_print (MsgUnknownCommand cmd))
  end.

(** A chat turn: the part of the loop body after the command test.  The
    call is [self.agent.chat(..., stream=True)], that is the streaming
    branch, and its history is [self.messages[:-1]]. *)
Definition chat_turn (user_input : string) : M State unit :=
  set_messages (fun l => l ++ [Message.Build "user" user_input]);;
  lift (console_print MsgAssistant);;
  s ← gets self;
  response ← lift (Agent.chat_stream (agent s) user_input
                     (Some (removelast (messages s))));
  set_messages (fun l => l ++ [Message.Build "assistant" response]);;
  lift (console_print MsgBlank).

(** The body of the inner [try] for one delivery of the prompt. *)
Definition iteration (input : Input) : M State unit :=
  match input with
  | Interrupt => raise KeyboardInterrupt
  | Line text =>
      let user_input := strip text in
      if String.eqb user_input EmptyString then mret tt
      else if startswith user_input "/" then handle_command user_input
      else chat_turn user_input
  end.

(** [while True: try: ... except KeyboardInterrupt: ... except EOFError: break] *)
Fixpoint loop (inputs : list Input) : M State unit :=
  match inputs with
  | [] => mret tt
  | input :: rest =>
      r ← try (iteration input);
      match r with
      | Ok _ => loop rest
      | Raise KeyboardInterrupt => lift (console_print MsgInterruptHint);; loop rest
      | Raise EOFError => mret tt
      | Raise e => raise e
      end
  end.

(** [REPLSession.run]: the welcome, the loop, then the [finally] block,
    then whatever the loop raised.  (Closing the manager's database session
    leaves the tables as they are.) *)
Definition run (inputs : list Input) : M State unit :=
  print_welcome;;
  r ← try (loop inputs);
  auto_save;;
  lift (console_print MsgGoodbye);;
  of_result r.

End REPLSession.





(* ===================================================================== *)
(** ** The notions the properties are stated with *)
(* ===================================================================== *)

(** What an attempt of [complete] comes to, given the provider's answer. *)
Definition attempt_result (o : Http.Outcome) : Result CompletionResponse.t :=
  match o with
  | Http.Fail e => Raise e
  | Http.Respond r => OpenAIService.read_response r
  end.

(** The failures of the retry policy: a transport failure, or a response
    whose status is not 2xx; with the error the attempt raises. *)
Definition attempt_fails (o : Http.Outcome) : option exn :=
  match o with
  | Http.Fail (TransportError detail) => Some (TransportError detail)
  | Http.Fail _ => None
  | Http.Respond r =>
      if Http.is_success r then None else Some (HTTPStatusError (Http.status_code r))
  end.

(** The provider's answer to the [i]-th request from now on. *)
Definition upcoming (w : World.t) (i : nat) : Http.Outcome :=
  World.provider w (length (World.calls w) + i)%nat.

(** The number of requests the provider recorded. *)
Definition recorded (w : World.t) : nat := length (World.calls w).

(** The chunks a generator hands out, in order, if it is run to its end. *)
Fixpoint chunks_of (g : Generator) : list value :=
  match g with
  | Stop | Throw _ => []
  | Yield chunk next => chunk :: chunks_of next
  | Log _ next => chunks_of next
  end.

(** The log records it writes. *)
Fixpoint records_of (g : Generator) : list LogRecord :=
  match g with
  | Stop | Throw _ => []
  | Yield _ next => records_of next
  | Log r next => r :: records_of next
  end.

(** How it ends: normally, or with an exception. *)
Fixpoint ending (g : Generator) : option exn :=
  match g with
  | Stop => None
  | Throw e => Some e
  | Yield _ next | Log _ next => ending next
  end.

(** A well-formed content event carrying [text]. *)
Definition content_event (text : string) : string :=
  Json.dq "data: {'choices': [{'delta': {'content': '" +:+ text +:+ Json.dq "'}}]}".

(** The terminal sentinel line. *)
Definition sentinel : string := "data: [DONE]".

(** The lines the decoder looks into: not blank, not the sentinel, and
    starting with the event prefix. *)
Definition is_event_line (line : string) : bool :=
  negb (String.eqb line EmptyString) && negb (String.eqb line sentinel)
  && startswith line "data: ".


(** The error record [complete] writes for a failed attempt. *)
Definition is_attempt_record (total : Z) (r : LogRecord) : bool :=
  match r with
  | LogApiError attempt n (HTTPStatusError _) => (1 <=? attempt) && (attempt <=? total) && (n =? total)
  | LogUnexpected attempt n _ => (1 <=? attempt) && (attempt <=? total) && (n =? total)
  | _ => false
  end.

(** The names of the stored agents. *)
Definition agent_names (w : World.t) : list string :=
  AgentModel.name <$> World.agents w.

(** A transcript as the REPL builds it: user and assistant messages only. *)
Definition conversational (transcript : list Message.t) : Prop :=
  Forall (fun m => Message.role m = "user" \/ Message.role m = "assistant") transcript.

(** Concrete runs the properties are exercised on. *)
Module Scenario.

Definition uuids (n : nat) : string :=
  "session-" +:+ String (ascii_of_nat (48 + n)) EmptyString.

(** The default settings and an API key from the environment. *)
Definition config : Config.t := Config.with_api_key "sk-test" Config.defaults.

Definition world (provider : nat -> Http.Outcome) (agents : list AgentModel.t)
  : World.t :=
  World.Build config provider [] [] [] [] agents ∅ uuids 0 "2024-01-01T00:00:00"
              Rich.renders.

Definition service : OpenAIService.t :=
  OpenAIService.Build "sk-test" "https://api.openai.com/v1" 60 3 "gpt-3.5-turbo".

Definition hello : list Message.t := [Message.Build "user" "hello"].

(** A whole-response body with the given content. *)
Definition completion (text : string) : Http.Outcome :=
  Http.Respond (Http.BuildResponse 200
    [Json.dq "{'choices': [{'message': {'role': 'assistant', 'content': '"
     +:+ text +:+ Json.dq "'}, 'finish_reason': 'stop'}]}"]).

Definition completion_response (text : string) : CompletionResponse.t :=
  CompletionResponse.Build (VStr text) (VStr "assistant") (VStr "stop") VNone.

(** A provider that times out, then answers 503, then succeeds. *)
Definition flaky (i : nat) : Http.Outcome :=
  match i with
  | 0%nat => Http.Fail (TransportError "timed out")
  | 1%nat => Http.Respond (Http.BuildResponse 503 [])
  | _ => completion "hi there"
  end.

(** A provider that answers 400 to every request. *)
Definition rejecting (i : nat) : Http.Outcome :=
  Http.Respond (Http.BuildResponse 400 []).

(** A configuration file that sets [max_retries: 0]. *)
Definition config_no_retries : Config.t := Config.with_max_retries 0 config.

Definition world_no_retries : World.t :=
  World.Build config_no_retries flaky [] [] [] [] [] ∅ uuids 0 "2024-01-01T00:00:00"
              Rich.renders.

(** The clients [OpenAIService(max_retries=0)] under that configuration
    and [OpenAIService(max_retries=-1)] under the default one. *)
Definition service_no_retries : OpenAIService.t :=
  OpenAIService.Build "sk-test" "https://api.openai.com/v1" 60 0 "gpt-3.5-turbo".

Definition service_negative : OpenAIService.t :=
  OpenAIService.Build "sk-test" "https://api.openai.com/v1" 60 (-1) "gpt-3.5-turbo".

(** A stream body whose middle event is a record with [choices: null]. *)
Definition stream_null_choices : list string :=
  [content_event "Hel"; Json.dq "data: {'choices': null}"; content_event "lo"].

(** A stream body whose middle event is cut short. *)
Definition stream_truncated : list string :=
  [content_event "Hel"; Json.dq "data: {'choices': [{'del"; content_event "lo"].

(** A stream body with an event after the sentinel. *)
Definition stream_after_sentinel : list string :=
  [content_event "Hel"; sentinel; content_event "lo"].

(** The row of the default agent and the agent built from it. *)
Definition default_row : AgentModel.t :=
  AgentModel.Build "agent-0" "default" "general" None None None None None.

Definition default_agent : Agent.t := AgentManager._model_to_agent default_row.

(** A provider that streams two content events and the sentinel. *)
Definition streaming (i : nat) : Http.Outcome :=
  Http.Respond (Http.BuildResponse 200
                  [content_event "hi "; EmptyString; content_event "there"; sentinel]).

(** A provider that answers every request with the whole response. *)
Definition whole (i : nat) : Http.Outcome := completion "hi there".

(** A transcript of one exchange. *)
Definition history : list Message.t :=
  [Message.Build "user" "hi"; Message.Build "assistant" "hi there"].

(** A provider that is down: every request times out. *)
Definition down (i : nat) : Http.Outcome := Http.Fail (TransportError "timed out").

(** A session of the default agent with one exchange behind it. *)
Definition session : REPLSession.t :=
  REPLSession.Build default_agent "session-0" history.

Definition running (provider : nat -> Http.Outcome) : REPLSession.State :=
  REPLSession.BuildState session (world provider [default_row]).

(** A fresh session, as [REPLSession.__init__] leaves it. *)
Definition fresh (provider : nat -> Http.Outcome) : REPLSession.State :=
  REPLSession.BuildState (REPLSession.Build default_agent "session-0" [])
    (World.set_uuid_count S (world provider [default_row])).

(** A 2xx answer whose body is not JSON, to every request. *)
Definition garbled (i : nat) : Http.Outcome :=
  Http.Respond (Http.BuildResponse 200 ["<html>Bad gateway</html>"]).


(** A role-only delta, as providers open a stream with. *)
Definition role_event : string :=
  Json.dq "data: {'choices': [{'delta': {'role': 'assistant'}}]}".


(** An agent of a type without a prompt of its own, and one bound to a
    provider the program does not know. *)
Definition custom_agent : Agent.t :=
  Agent.Build "agent-1" "poet" "poet" None None None None None.

Definition foreign_agent : Agent.t :=
  Agent.Build "agent-2" "claude" "general" (Some "anthropic") None None None None.

(** A configuration file that asks for ten attempts and a long timeout. *)
Definition config_patient : Config.t :=
  Config.Build "default" "openai" "gpt-4" 300 10 (Some "sk-test") None true.

Definition world_patient : World.t :=
  World.Build config_patient flaky [] [] [] [] [default_row] ∅ uuids 0
              "2024-01-01T00:00:00" Rich.renders.

(** A second stored agent. *)
Definition coder_row : AgentModel.t :=
  AgentModel.Build "agent-7" "coder" "developer" None (Some "gpt-4") None None None.


End Scenario.

(* ===================================================================== *)
(** ** Properties *)
(* ===================================================================== *)

Example loads_object :
  Json.loads (Json.dq "{'choices': [{'delta': {'content': 'Hi'}}], 'n': -12, 't': 0.7e1}")
  = Ok (VDict [("choices", VList [VDict [("delta", VDict [("content", VStr "Hi")])]]);
               ("n", VInt (-12)); ("t", VFloat "0.7e1")]).
Proof. vm_compute. reflexivity. Qed.

Example loads_null : Json.loads "null" = Ok VNone.
Proof. reflexivity. Qed.

Example loads_truncated : Json.loads (Json.dq "{'choices': [") = Raise JSONDecodeError.
Proof. reflexivity. Qed.

Example loads_sentinel : Json.loads "[DONE]" = Raise JSONDecodeError.
Proof. reflexivity. Qed.

Example loads_escapes :
  Json.loads (Json.dq "'caf\u00e9 \ud83d\ude00'") = Ok (VStr "café 😀").
Proof. vm_compute. reflexivity. Qed.

Example renders_tags :
  Rich.renders (Markup.not_found "ghost") = true /\
  Rich.renders (Markup.not_found "[/b]") = false /\
  Rich.renders (Markup.not_found "[b]") = true /\
  Rich.renders (Markup.not_found "\[/b]") = true /\
  Rich.renders (Markup.using_agent "default" "general") = true.
Proof. repeat apply conj; vm_compute; reflexivity. Qed.


(** *** Bookkeeping of the world *)

Lemma send_run url payload w :
  OpenAIService.send url payload w =
  (match upcoming w 0 with
   | Http.Fail e => Raise e
   | Http.Respond r => Ok r
   end,
   World.set_calls (fun l => l ++ [Http.BuildRequest "POST" url payload]) w).
Proof.
  unfold OpenAIService.send, upcoming. rewrite Nat.add_0_r.
  destruct (World.provider w (length (World.calls w))); reflexivity.
Qed.

Lemma attempt_request_run payload w :
  OpenAIService.attempt_request payload w =
  (attempt_result (upcoming w 0),
   World.set_calls
     (fun l => l ++ [Http.BuildRequest "POST" "/chat/completions" payload]) w).
Proof.
  unfold OpenAIService.attempt_request, mbind, M_bind. rewrite send_run.
  unfold attempt_result. destruct (upcoming w 0); reflexivity.
Qed.

Lemma recorded_set_calls_snoc req w :
  recorded (World.set_calls (fun l => l ++ [req]) w) = S (recorded w).
Proof. unfold recorded. simpl. rewrite length_app. simpl. lia. Qed.

Lemma upcoming_set_calls_snoc req w i :
  upcoming (World.set_calls (fun l => l ++ [req]) w) i = upcoming w (S i).
Proof.
  unfold upcoming. simpl. rewrite length_app. simpl. f_equal. lia.
Qed.

Lemma attempt_fails_result o e :
  attempt_fails o = Some e ->
  attempt_result o = Raise e /\ is_Exception e = true.
Proof.
  destruct o as [e' | r]; simpl.
  - destruct e'; intros H; inversion H; subst; auto.
  - unfold OpenAIService.read_response, Http.raise_for_status.
    destruct (Http.is_success r); intros H; inversion H; subst; auto.
Qed.

Lemma recorded_set_log f w : recorded (World.set_log f w) = recorded w.
Proof. reflexivity. Qed.

Lemma upcoming_set_log f w i : upcoming (World.set_log f w) i = upcoming w i.
Proof. reflexivity. Qed.

(** *** The retry loop, one attempt at a time *)

(** One turn of the loop: a result ends it; an [Exception] is logged and
    either raised again (last attempt) or followed by the next attempt;
    anything else passes through. *)
Lemma retry_loop_step self payload attempt rest w :
  let w1 := World.set_calls
              (fun l => l ++ [Http.BuildRequest "POST" "/chat/completions" payload]) w in
  match attempt_result (upcoming w 0) with
  | Ok c => OpenAIService.retry_loop self payload (attempt :: rest) w = (Ok c, w1)
  | Raise e =>
      if is_Exception e then
        exists w2,
          recorded w2 = S (recorded w) /\
          (forall i, upcoming w2 i = upcoming w (S i)) /\
          OpenAIService.retry_loop self payload (attempt :: rest) w =
          if attempt =? OpenAIService.max_retries self - 1
          then (Raise e, w2)
          else OpenAIService.retry_loop self payload rest w2
      else OpenAIService.retry_loop self payload (attempt :: rest) w = (Raise e, w1)
  end.
Proof.
  intros w1. cbn [OpenAIService.retry_loop].
  unfold mbind, M_bind, try. rewrite attempt_request_run. fold w1.
  destruct (attempt_result (upcoming w 0)) as [c | e]; [reflexivity |].
  destruct e; cbn [is_Exception]; try reflexivity;
    (eexists; split; [| split];
     [ | | unfold logger, modify; cbn beta iota;
           destruct (attempt =? OpenAIService.max_retries self - 1); reflexivity ];
     [ rewrite recorded_set_log; apply recorded_set_calls_snoc
     | intros i; rewrite upcoming_set_log; apply upcoming_set_calls_snoc ]).
Qed.

Lemma retry_loop_spec self payload m :
  forall a w,
    Z.of_nat (a + m) = OpenAIService.max_retries self ->
    let out := OpenAIService.retry_loop self payload (Z.of_nat <$> seq a m) w in
    (recorded out.2 <= recorded w + m)%nat /\
    (forall k c,
        (k < m)%nat ->
        (forall i, (i < k)%nat -> is_Some (attempt_fails (upcoming w i))) ->
        attempt_result (upcoming w k) = Ok c ->
        out.1 = Ok c /\ recorded out.2 = (recorded w + k + 1)%nat) /\
    (forall e,
        (0 < m)%nat ->
        (forall i, (i < m)%nat -> is_Some (attempt_fails (upcoming w i))) ->
        attempt_fails (upcoming w (m - 1)) = Some e ->
        out.1 = Raise e /\ recorded out.2 = (recorded w + m)%nat).
Proof.
  induction m as [| m IH]; intros a w Hn out.
  - subst out. cbn. repeat split; intros; lia.
  - subst out. cbn [seq fmap list_fmap].
    pose proof (retry_loop_step self payload (Z.of_nat a) (Z.of_nat <$> seq (S a) m) w)
      as Hstep.
    cbn zeta in Hstep.
    destruct (attempt_result (upcoming w 0)) as [c0 | e0] eqn:Hres.
    + (* the first attempt answers *)
      rewrite Hstep. cbn [fst snd]. rewrite recorded_set_calls_snoc.
      split; [lia |]. split.
      * intros k c Hk Hfail Hok. destruct k as [| k].
        -- rewrite Hres in Hok. inversion Hok; subst. split; [reflexivity | lia].
        -- destruct (Hfail 0%nat ltac:(lia)) as [e He].
           apply attempt_fails_result in He as [He _]. congruence.
      * intros e _ Hfail _. destruct (Hfail 0%nat ltac:(lia)) as [e' He'].
        apply attempt_fails_result in He' as [He' _]. congruence.
    + destruct (is_Exception e0) eqn:Hexc.
      * destruct Hstep as (w2 & Hrec & Hup & Hstep). rewrite Hstep.
        destruct (Z.of_nat a =? OpenAIService.max_retries self - 1) eqn:Hlast.
        -- (* the last attempt: raised again *)
           apply Z.eqb_eq in Hlast. assert (m = 0%nat) by lia. subst m.
           cbn [fst snd]. rewrite Hrec. split; [lia |]. split.
           ++ intros k c Hk _ Hok. assert (k = 0%nat) by lia. subst k. congruence.
           ++ intros e _ _ He. cbn in He. apply attempt_fails_result in He as [He _].
              split; [congruence | lia].
        -- (* another attempt follows *)
           apply Z.eqb_neq in Hlast.
           specialize (IH (S a) w2 ltac:(lia)). cbn zeta in IH.
           destruct IH as (IHle & IHok & IHfail). rewrite Hrec in *.
           split; [lia |]. split.
           ++ intros k c Hk Hfail Hok. destruct k as [| k]; [congruence |].
              destruct (IHok k c ltac:(lia)) as [-> ->].
              ** intros i Hi. rewrite Hup. apply Hfail. lia.
              ** rewrite Hup. exact Hok.
              ** split; [reflexivity | lia].
           ++ intros e _ Hfail He.
              assert (0 < m)%nat by lia.
              destruct (IHfail e ltac:(lia)) as [-> ->].
              ** intros i Hi. rewrite Hup. apply Hfail. lia.
              ** rewrite Hup. replace (S (m - 1)) with (S m - 1)%nat by lia. exact He.
              ** split; [reflexivity | lia].
      * (* not an [Exception]: passes through *)
        rewrite Hstep. cbn [fst snd]. rewrite recorded_set_calls_snoc.
        split; [lia |]. split.
        -- intros k c Hk Hfail Hok. destruct k as [| k]; [congruence |].
           destruct (Hfail 0%nat ltac:(lia)) as [e He].
           apply attempt_fails_result in He as [He Hex]. congruence.
        -- intros e _ Hfail _. destruct (Hfail 0%nat ltac:(lia)) as [e' He'].
           apply attempt_fails_result in He' as [He' Hex]. congruence.
Qed.

(** *** The retry policy of [complete] *)

(** C1.  With [max_retries = n >= 1], [complete] sends at most [n]
    requests.  If the first [k - 1] attempts fail (transport failure or a
    status outside 2xx, alike) and attempt [k <= n] succeeds, its result is
    returned after exactly [k] requests; if all [n] attempts fail, the error
    of the last one is raised after exactly [n] requests. *)
Theorem complete_retry_policy self messages model temperature max_tokens kwargs w
    (n : Z) :
  OpenAIService.max_retries self = n ->
  1 <= n ->
  let out :=
    OpenAIService.complete self messages model temperature max_tokens kwargs w in
  let attempts := (recorded out.2 - recorded w)%nat in
  Z.of_nat attempts <= n /\
  (forall (k : nat) c,
      (1 <= k)%nat -> Z.of_nat k <= n ->
      (forall i, (i < k - 1)%nat -> is_Some (attempt_fails (upcoming w i))) ->
      attempt_result (upcoming w (k - 1)) = Ok c ->
      out.1 = Ok c /\ attempts = k) /\
  (forall e,
      (forall i, Z.of_nat i < n -> is_Some (attempt_fails (upcoming w i))) ->
      attempt_fails (upcoming w (Z.to_nat n - 1)) = Some e ->
      out.1 = Raise e /\ Z.of_nat attempts = n).
Proof.
  intros Hn Hpos out attempts. subst out attempts.
  unfold OpenAIService.complete, range.
  set (payload := OpenAIService.build_payload _ _ _ _ _ _ _).
  destruct (retry_loop_spec self payload (Z.to_nat n) 0%nat w ltac:(lia))
    as (Hle & Hok & Hfail).
  rewrite Hn. split; [lia |]. split.
  - intros k c Hk1 Hkn Hprev Hres.
    destruct (Hok (k - 1)%nat c ltac:(lia) Hprev Hres) as [-> ->].
    split; [reflexivity | lia].
  - intros e Hall He.
    destruct (Hfail e ltac:(lia)) as [-> ->]; [| exact He |].
    + intros i Hi. apply Hall. lia.
    + split; [reflexivity | lia].
Qed.

(** With [max_retries = 3] and a provider that fails twice and then
    succeeds, the success is returned and three calls are recorded. *)
Lemma complete_retry_policy_witness :
  let out :=
    OpenAIService.complete Scenario.service Scenario.hello None (VFloat "0.7") None ∅
      (Scenario.world Scenario.flaky []) in
  out.1 = Ok (Scenario.completion_response "hi there") /\
  (recorded out.2 - 0)%nat = 3%nat.
Proof.
  destruct (complete_retry_policy Scenario.service Scenario.hello None (VFloat "0.7")
              None ∅ (Scenario.world Scenario.flaky []) 3 eq_refl ltac:(lia))
    as (_ & Hok & _).
  apply (Hok 3%nat); [lia | lia | | vm_compute; reflexivity].
  intros [| [| i]] Hi; [vm_compute; eauto | vm_compute; eauto | lia].
Defined.

(** A provider that rejects every request: the last error is raised
    after three calls. *)
Example complete_always_failing :
  let out :=
    OpenAIService.complete Scenario.service Scenario.hello None (VFloat "0.7") None ∅
      (Scenario.world Scenario.rejecting []) in
  out.1 = Raise (HTTPStatusError 400) /\ recorded out.2 = 3%nat.
Proof. cbn zeta. split; vm_compute; reflexivity. Qed.

(** *** What the client sends *)

Lemma retry_loop_calls self payload attempts :
  forall w,
  exists new,
    World.calls (OpenAIService.retry_loop self payload attempts w).2
    = World.calls w ++ new /\
    Forall (fun req => Http.json req = payload) new.
Proof.
  induction attempts as [| attempt rest IH]; intros w.
  - exists []. cbn. rewrite app_nil_r. auto.
  - cbn [OpenAIService.retry_loop]. unfold mbind, M_bind, try.
    rewrite attempt_request_run.
    set (req := Http.BuildRequest "POST" "/chat/completions" payload).
    assert (Hone : Forall (fun r => Http.json r = payload) [req])
      by (repeat constructor).
    destruct (attempt_result (upcoming w 0)) as [c | e].
    + exists [req]. split; [reflexivity | exact Hone].
    + destruct e; cbn [is_Exception];
        try (exists [req]; split; [reflexivity | exact Hone]);
        unfold logger, modify; cbn beta iota;
        (destruct (attempt =? OpenAIService.max_retries self - 1);
         [ exists [req]; split; [reflexivity | exact Hone]
         | match goal with
           | |- context [OpenAIService.retry_loop _ _ _ ?w2] =>
               destruct (IH w2) as (new & Hcalls & Hall);
               exists (req :: new); rewrite Hcalls; split;
               [ cbn; rewrite <- app_assoc; reflexivity
               | constructor; [reflexivity | exact Hall] ]
           end ]).
Qed.

Lemma complete_stream_calls self messages model temperature max_tokens kwargs w :
  World.calls
    (OpenAIService.complete_stream self messages model temperature max_tokens kwargs w).2
  = World.calls w ++
    [Http.BuildRequest "POST" "/chat/completions"
       (OpenAIService.build_payload true (OpenAIService.default_model self) messages
          model temperature max_tokens kwargs)].
Proof.
  unfold OpenAIService.complete_stream, mbind, M_bind. rewrite send_run.
  destruct (upcoming w 0) as [e | r]; [reflexivity |].
  unfold of_result. destruct (Http.raise_for_status r); reflexivity.
Qed.

Lemma build_payload_max_tokens_zero stream default_model messages model temperature
    (kwargs : gmap string value) :
  OpenAIService.build_payload stream default_model messages model temperature
    (Some 0) kwargs !! "max_tokens" = kwargs !! "max_tokens".
Proof.
  unfold OpenAIService.build_payload. cbn.
  rewrite lookup_union. destruct (kwargs !! "max_tokens") as [v |] eqn:Hk.
  - rewrite union_Some_l. reflexivity.
  - rewrite (left_id None _).
    rewrite !lookup_insert_ne by discriminate.
    destruct stream; [rewrite lookup_singleton_ne by discriminate |
                      rewrite lookup_empty]; reflexivity.
Qed.

Lemma retry_loop_first_request self payload attempt rest w :
  (recorded w < recorded (OpenAIService.retry_loop self payload (attempt :: rest) w).2)%nat.
Proof.
  pose proof (retry_loop_step self payload attempt rest w) as Hstep. cbn zeta in Hstep.
  destruct (attempt_result (upcoming w 0)) as [c | e].
  - rewrite Hstep. cbn [snd]. rewrite recorded_set_calls_snoc. lia.
  - destruct (is_Exception e).
    + destruct Hstep as (w2 & Hrec & _ & ->).
      destruct (attempt =? OpenAIService.max_retries self - 1).
      * cbn [snd]. lia.
      * destruct (retry_loop_calls self payload rest w2) as (new & Hcalls & _).
        unfold recorded in *. rewrite Hcalls, length_app. lia.
    + rewrite Hstep. cbn [snd]. rewrite recorded_set_calls_snoc. lia.
Qed.

(** *** Zero-valued parameters *)

Lemma init_result api_key base_url timeout max_retries w self w' :
  OpenAIService.init api_key base_url timeout max_retries w = (Ok self, w') ->
  OpenAIService.timeout self = or_int timeout (Config.timeout (World.config w)) /\
  OpenAIService.max_retries self
  = or_int max_retries (Config.max_retries (World.config w)).
Proof.
  unfold OpenAIService.init, mbind, M_bind, gets, raise, mret, M_ret.
  destruct (or_opt api_key _) as [key |]; [| discriminate].
  destruct (String.eqb key EmptyString); [discriminate |].
  intros H. inversion H; subst. auto.
Qed.

(** C10, as the code has it.  A zero [max_retries] or [timeout] given to
    the constructor is replaced by the configured value, whatever that is.
    A client whose [max_retries] ends up at zero or below sends no request
    and [complete] raises [RuntimeError]; with one or more it sends a
    request.  With [max_tokens = 0] no request of [complete] or
    [complete_stream] carries a [max_tokens] entry. *)
Theorem zero_valued_parameters :
  (forall api_key base_url timeout w self w',
      OpenAIService.init api_key base_url timeout 0 w = (Ok self, w') ->
      OpenAIService.max_retries self = Config.max_retries (World.config w)) /\
  (forall api_key base_url max_retries w self w',
      OpenAIService.init api_key base_url 0 max_retries w = (Ok self, w') ->
      OpenAIService.timeout self = Config.timeout (World.config w)) /\
  (forall self messages model temperature max_tokens kwargs w,
      OpenAIService.max_retries self <= 0 ->
      OpenAIService.complete self messages model temperature max_tokens kwargs w
      = (Raise (RuntimeError "Failed to complete request after retries"), w)) /\
  (forall self messages model temperature max_tokens kwargs w,
      1 <= OpenAIService.max_retries self ->
      (recorded w <
       recorded (OpenAIService.complete self messages model temperature max_tokens
                   kwargs w).2)%nat) /\
  (forall self messages model temperature (kwargs : gmap string value) w,
      kwargs !! "max_tokens" = None ->
      Forall (fun req => Http.json req !! "max_tokens" = None)
        (drop (recorded w)
           (World.calls (OpenAIService.complete self messages model temperature
                           (Some 0) kwargs w).2)) /\
      Forall (fun req => Http.json req !! "max_tokens" = None)
        (drop (recorded w)
           (World.calls (OpenAIService.complete_stream self messages model temperature
                           (Some 0) kwargs w).2))).
Proof.
  repeat split.
  - intros * H. apply init_result in H as [_ H]. exact H.
  - intros * H. apply init_result in H as [H _]. exact H.
  - intros * Hle. unfold OpenAIService.complete, range.
    replace (Z.to_nat (OpenAIService.max_retries self)) with 0%nat by lia.
    reflexivity.
  - intros * Hge. unfold OpenAIService.complete, range.
    destruct (Z.to_nat (OpenAIService.max_retries self)) as [| m] eqn:Hm; [lia |].
    cbn [seq fmap list_fmap]. apply retry_loop_first_request.
  - unfold OpenAIService.complete.
    match goal with
    | |- context [OpenAIService.retry_loop ?s ?p ?a ?w0] =>
        destruct (retry_loop_calls s p a w0) as (new & -> & Hall)
    end.
    unfold recorded. rewrite drop_app_length.
    eapply Forall_impl; [exact Hall |]. intros req ->.
    rewrite build_payload_max_tokens_zero. assumption.
  - rewrite complete_stream_calls. unfold recorded. rewrite drop_app_length.
    repeat constructor. cbn [Http.json].
    rewrite build_payload_max_tokens_zero. assumption.
Qed.

Lemma zero_valued_parameters_witness :
  OpenAIService.max_retries Scenario.service_no_retries
  = Config.max_retries (World.config Scenario.world_no_retries) /\
  OpenAIService.timeout Scenario.service_no_retries
  = Config.timeout (World.config Scenario.world_no_retries) /\
  OpenAIService.complete Scenario.service_negative Scenario.hello None (VFloat "0.7")
    None ∅ (Scenario.world Scenario.flaky [])
  = (Raise (RuntimeError "Failed to complete request after retries"),
     Scenario.world Scenario.flaky []) /\
  (recorded (Scenario.world Scenario.flaky []) <
   recorded (OpenAIService.complete Scenario.service Scenario.hello None (VFloat "0.7")
               None ∅ (Scenario.world Scenario.flaky [])).2)%nat /\
  Forall (fun req => Http.json req !! "max_tokens" = None)
    (drop (recorded (Scenario.world Scenario.flaky []))
       (World.calls (OpenAIService.complete Scenario.service Scenario.hello None
                       (VFloat "0.7") (Some 0) ∅
                       (Scenario.world Scenario.flaky [])).2)).
Proof.
  destruct zero_valued_parameters as (Hretries & Htimeout & Hzero & Hone & Htokens).
  assert (Hinit : OpenAIService.init None None 0 0 Scenario.world_no_retries
                  = (Ok Scenario.service_no_retries, Scenario.world_no_retries))
    by reflexivity.
  split; [| split; [| split; [| split]]].
  - apply (Hretries None None 0 Scenario.world_no_retries _ _ Hinit).
  - apply (Htimeout None None 0 Scenario.world_no_retries _ _ Hinit).
  - apply Hzero. vm_compute. discriminate.
  - apply Hone. vm_compute. discriminate.
  - assert (Hk : (∅ : gmap string value) !! "max_tokens" = None)
      by (vm_compute; reflexivity).
    destruct (Htokens Scenario.service Scenario.hello None (VFloat "0.7") ∅
                (Scenario.world Scenario.flaky []) Hk) as [H _].
    exact H.
Defined.

(** C10 as stated fails: with [max_retries: 0] configured, the client built
    with [max_retries=0] makes no attempt at all, and so does the client
    built with [max_retries=-1] under the default configuration. *)
Lemma zero_attempts_counterexample :
  (OpenAIService.init None None 0 0 Scenario.world_no_retries).1
  = Ok Scenario.service_no_retries /\
  OpenAIService.complete Scenario.service_no_retries Scenario.hello None (VFloat "0.7")
    None ∅ Scenario.world_no_retries
  = (Raise (RuntimeError "Failed to complete request after retries"),
     Scenario.world_no_retries) /\
  (OpenAIService.init None None 60 (-1) (Scenario.world Scenario.flaky [])).1
  = Ok Scenario.service_negative /\
  OpenAIService.complete Scenario.service_negative Scenario.hello None (VFloat "0.7")
    None ∅ (Scenario.world Scenario.flaky [])
  = (Raise (RuntimeError "Failed to complete request after retries"),
     Scenario.world Scenario.flaky []).
Proof. split; [| split; [| split]]; reflexivity. Qed.

(** *** The chunk decoder *)

Example decode_truncated :
  OpenAIService.decode Scenario.stream_truncated
  = Yield (VStr "Hel") (Log (LogChunkWarning JSONDecodeError) (Yield (VStr "lo") Stop)).
Proof. vm_compute. reflexivity. Qed.

Lemma decode_cons_event line rest :
  String.eqb line EmptyString = false ->
  String.eqb line sentinel = false ->
  startswith line "data: " = true ->
  OpenAIService.decode (line :: rest) =
  match OpenAIService.chunk_of line with
  | Ok (Some content) => Yield content (OpenAIService.decode rest)
  | Ok None => OpenAIService.decode rest
  | Raise e =>
      if OpenAIService.decoder_catches e
      then Log (LogChunkWarning e) (OpenAIService.decode rest)
      else Throw e
  end.
Proof.
  intros He Hs Hp. cbn [OpenAIService.decode]. unfold sentinel in Hs.
  rewrite He, Hs, Hp. reflexivity.
Qed.

(** A malformed event the [except] clause covers, between two events that
    carry content: both deltas come out, in order, one warning is logged,
    and the generator ends normally. *)
Lemma decode_skips_caught_event first bad last d1 d2 e :
  (forall line, In line [first; bad; last] ->
     String.eqb line EmptyString = false /\
     String.eqb line sentinel = false /\
     startswith line "data: " = true) ->
  OpenAIService.chunk_of first = Ok (Some d1) ->
  OpenAIService.chunk_of last = Ok (Some d2) ->
  OpenAIService.chunk_of bad = Raise e ->
  OpenAIService.decoder_catches e = true ->
  OpenAIService.decode [first; bad; last]
  = Yield d1 (Log (LogChunkWarning e) (Yield d2 Stop)).
Proof.
  intros Hlines H1 H2 Hbad Hcatch.
  destruct (Hlines first ltac:(simpl; auto)) as (? & ? & ?).
  destruct (Hlines bad ltac:(simpl; auto)) as (? & ? & ?).
  destruct (Hlines last ltac:(simpl; auto)) as (? & ? & ?).
  rewrite !decode_cons_event by assumption.
  rewrite H1, Hbad, Hcatch, H2. reflexivity.
Qed.

(** C3, at the failing input.  The middle event is a record whose
    [choices] is [null]: subscripting it raises [TypeError], which the
    [except] clause does not name.  The first delta is handed out, then the
    generator raises: no warning is logged and the second delta never
    comes. *)
Theorem decode_null_choices_raises :
  OpenAIService.decode Scenario.stream_null_choices
  = Yield (VStr "Hel") (Throw TypeError) /\
  OpenAIService.chunk_of (Json.dq "data: {'choices': null}") = Raise TypeError /\
  OpenAIService.decoder_catches TypeError = false.
Proof. split; [| split]; vm_compute; reflexivity. Qed.

(** C4 as stated fails: the event after the sentinel is decoded and its
    chunk handed out. *)
Lemma chunk_after_sentinel_counterexample :
  chunks_of (OpenAIService.decode Scenario.stream_after_sentinel)
  = [VStr "Hel"; VStr "lo"] /\
  chunks_of (OpenAIService.decode [content_event "Hel"]) = [VStr "Hel"].
Proof. split; vm_compute; reflexivity. Qed.

(** C4, as the code has it.  The sentinel line is passed over like a blank
    line: it gives no chunk and no log record and does not end the
    sequence; the lines after it are decoded as if it were not there, and
    the generator finishes when the lines are used up. *)
Theorem sentinel_is_skipped before after :
  OpenAIService.decode (before ++ sentinel :: after)
  = OpenAIService.decode (before ++ after) /\
  OpenAIService.decode [] = Stop.
Proof.
  split; [| reflexivity].
  induction before as [| line before IH]; [reflexivity |].
  cbn [app OpenAIService.decode]. rewrite IH. reflexivity.
Qed.

(** *** Agent.chat *)




Lemma init_keeps_world api_key base_url timeout max_retries w :
  (OpenAIService.init api_key base_url timeout max_retries w).2 = w.
Proof.
  unfold OpenAIService.init, mbind, M_bind, gets, raise, mret, M_ret.
  destruct (or_opt api_key _) as [key |]; [| reflexivity].
  destruct (String.eqb key EmptyString); reflexivity.
Qed.

Lemma ai_service_keeps_world self w : (Agent.ai_service self w).2 = w.
Proof.
  unfold Agent.ai_service, mbind, M_bind, gets, raise.
  destruct (String.eqb _ "openai"); [| reflexivity].
  apply init_keeps_world.
Qed.

(** The service an agent builds has the constructor's default of three
    attempts, whatever the configuration says. *)
Lemma ai_service_max_retries self w service :
  (Agent.ai_service self w).1 = Ok service ->
  OpenAIService.max_retries service = 3.
Proof.
  unfold Agent.ai_service, mbind, M_bind, gets, raise. cbn beta iota.
  destruct (String.eqb _ "openai"); [| discriminate].
  unfold OpenAIService.init_default. intros H.
  destruct (OpenAIService.init None None 60 3 w) as [r w'] eqn:Hinit.
  cbn in H. subst r. apply init_result in Hinit as [_ ->]. reflexivity.
Qed.

Lemma ai_service_run self w service :
  (Agent.ai_service self w).1 = Ok service ->
  Agent.ai_service self w = (Ok service, w).
Proof.
  intros H. pose proof (ai_service_keeps_world self w) as Hw.
  destruct (Agent.ai_service self w) as [r w']. cbn in *. congruence.
Qed.



Lemma chat_complete_run self message history w service response w' :
  (Agent.ai_service self w).1 = Ok service ->
  OpenAIService.complete service (Agent.build_messages self message history)
    (Agent.model self) (default (VFloat "0.7") (Agent.temperature self))
    (Agent.max_tokens self) ∅ w = (Ok response, w') ->
  Agent.chat_complete self message history w
  = (Ok (CompletionResponse.content response), w').
Proof.
  intros Hsvc Hcomplete. unfold Agent.chat_complete, mbind, M_bind.
  rewrite (ai_service_run _ _ _ Hsvc), Hcomplete. reflexivity.
Qed.


(** C6.  Without streaming, [chat] returns the content of the response
    that [complete] produced, as it is, and leaves the world as [complete]
    left it. *)
Theorem chat_returns_content self message history w service response w' :
  (Agent.ai_service self w).1 = Ok service ->
  OpenAIService.complete service (Agent.build_messages self message history)
    (Agent.model self) (default (VFloat "0.7") (Agent.temperature self))
    (Agent.max_tokens self) ∅ w = (Ok response, w') ->
  Agent.chat self message history false w
  = (Ok (CompletionResponse.content response), w').
Proof.
  intros Hsvc Hcomplete. unfold Agent.chat.
  apply (chat_complete_run _ _ _ _ _ _ _ Hsvc Hcomplete).
Qed.

Lemma chat_returns_content_witness :
  (Agent.chat Scenario.default_agent "hello" None false
     (Scenario.world Scenario.whole [])).1
  = Ok (VStr "hi there").
Proof.
  set (w := Scenario.world Scenario.whole []).
  assert (Hsvc : (Agent.ai_service Scenario.default_agent w).1 = Ok Scenario.service)
    by (vm_compute; reflexivity).
  destruct (OpenAIService.complete Scenario.service
              (Agent.build_messages Scenario.default_agent "hello" None)
              (Agent.model Scenario.default_agent)
              (default (VFloat "0.7") (Agent.temperature Scenario.default_agent))
              (Agent.max_tokens Scenario.default_agent) ∅ w) as [res w'] eqn:Hc.
  assert (Hres : res = Ok (Scenario.completion_response "hi there")).
  { replace res with (res, w').1 by reflexivity. rewrite <- Hc.
    vm_compute. reflexivity. }
  subst res.
  rewrite (chat_returns_content Scenario.default_agent "hello" None w
             Scenario.service _ w' Hsvc Hc).
  reflexivity.
Defined.



(** *** The message list sent to the provider *)

Lemma build_payload_messages stream default_model messages model temperature max_tokens :
  OpenAIService.build_payload stream default_model messages model temperature
    max_tokens ∅ !! "messages"
  = Some (OpenAIService.openai_messages messages).
Proof.
  unfold OpenAIService.build_payload. cbn zeta. rewrite (left_id_L ∅ (∪)).
  assert (H : forall rest : gmap string value,
             <["model" := VStr (or_str model default_model)]>
               (<["messages" := OpenAIService.openai_messages messages]> rest)
             !! "messages" = Some (OpenAIService.openai_messages messages)).
  { intros rest. rewrite lookup_insert_ne by discriminate. apply lookup_insert_eq. }
  destruct max_tokens as [n |]; [destruct (n =? 0) |]; try apply H.
  rewrite lookup_insert_ne by discriminate. apply H.
Qed.

(** The streaming loop and the line feed after it send nothing. *)
Lemma async_for_calls g :
  forall acc w,
    World.calls (async_for g Agent.stream_body acc w).2 = World.calls w.
Proof.
  induction g as [| e | chunk next IH | r next IH]; intros acc w;
    cbn [async_for]; unfold mbind, M_bind; try reflexivity.
  - destruct chunk; try reflexivity. cbn [Agent.stream_body].
    unfold print, modify, mbind, M_bind, mret, M_ret. cbn beta iota.
    rewrite IH. reflexivity.
  - unfold logger, modify. cbn beta iota. rewrite IH. reflexivity.
Qed.

(** The requests of a call to [chat]: they all carry the list that
    [build_messages] assembles; when the client can be built there is
    exactly one with streaming, and between one and three (the attempts of
    the agent's client) without. *)
Lemma chat_calls self message history stream w :
  exists sent,
    World.calls (Agent.chat self message history stream w).2 = World.calls w ++ sent /\
    Forall (fun req =>
              Http.json req !! "messages"
              = Some (OpenAIService.openai_messages
                        (Agent.build_messages self message history))) sent /\
    (forall service,
        (Agent.ai_service self w).1 = Ok service ->
        if stream then length sent = 1%nat else (1 <= length sent <= 3)%nat).
Proof.
  pose proof (ai_service_keeps_world self w) as Hw.
  unfold Agent.chat, Agent.chat_stream, Agent.chat_complete, mbind, M_bind.
  destruct stream; cbn beta iota;
    (destruct (Agent.ai_service self w) as [[service | e] w0] eqn:Hsvc;
     cbn [snd] in Hw; subst w0;
     [| exists []; rewrite app_nil_r;
        split; [reflexivity | split; [constructor | intros service H; discriminate]]]).
  - match goal with
    | |- context [OpenAIService.complete_stream ?s ?m ?md ?t ?mt ?k ?w0] =>
        pose proof (complete_stream_calls s m md t mt k w0) as Hcalls;
        destruct (OpenAIService.complete_stream s m md t mt k w0) as [[g | e] w1]
    end; cbn [snd] in Hcalls.
    + pose proof (async_for_calls g EmptyString w1) as Hkeep.
      destruct (async_for g Agent.stream_body EmptyString w1) as [[text | e] w2];
        cbn [snd] in Hkeep |- *;
        [unfold print, modify, mret, M_ret; cbn [snd World.calls World.set_stdout] |];
        rewrite Hkeep, Hcalls; eexists; (split; [reflexivity |]);
        (split; [repeat constructor; cbn [Http.json]; apply build_payload_messages
                | intros; reflexivity]).
    + cbn [snd]. rewrite Hcalls. eexists. split; [reflexivity |].
      split; [repeat constructor; cbn [Http.json]; apply build_payload_messages
             | intros; reflexivity].
  - assert (Hmax : OpenAIService.max_retries service = 3).
    { apply (ai_service_max_retries self w). rewrite Hsvc. reflexivity. }
    unfold OpenAIService.complete, range. rewrite Hmax.
    change (Z.to_nat 3) with 3%nat.
    set (payload := OpenAIService.build_payload _ _ _ _ _ _ _).
    destruct (retry_loop_calls service payload (Z.of_nat <$> seq 0 3) w)
      as (new & Hcalls & Hall).
    destruct (retry_loop_spec service payload 3 0 w) as (Hle & _);
      [rewrite Hmax; reflexivity |].
    cbn zeta in Hle.
    pose proof (retry_loop_first_request service payload (Z.of_nat 0)
                  (Z.of_nat <$> seq 1 2) w) as Hge.
    change (Z.of_nat 0 :: (Z.of_nat <$> seq 1 2)) with (Z.of_nat <$> seq 0 3) in Hge.
    unfold recorded in Hle, Hge. rewrite Hcalls, length_app in Hle, Hge.
    exists new.
    destruct (OpenAIService.retry_loop service payload (Z.of_nat <$> seq 0 3) w)
      as [[response | e] w1]; cbn [snd] in Hcalls |- *; unfold mret, M_ret; cbn [snd];
      (split; [exact Hcalls |]);
      (split; [eapply Forall_impl; [exact Hall |]; intros req ->;
               apply build_payload_messages
              | intros; lia]).
Qed.

(** C7.  For a history without system messages, [chat] assembles one
    system message with the agent's resolved prompt, then the history, then
    one user message with the given text, and calls the client's method
    ([complete_stream] or [complete]) with this list.  The client sends it:
    every request of the call carries the list, message by message, as its
    [messages] entry, and when the client can be built a request does go
    out (exactly one with streaming, between one and three without).  The
    list holds a single system message, the first one, and ends with the
    new user message. *)
Theorem chat_message_list self message (history : option (list Message.t)) stream w :
  Forall (fun m => Message.role m <> "system") (default [] history) ->
  let expected :=
    [Message.Build "system" (Agent.get_system_prompt self)]
    ++ default [] history ++ [Message.Build "user" message] in
  let wire :=
    VList ((fun m => VDict [("role", VStr (Message.role m));
                            ("content", VStr (Message.content m))]) <$> expected) in
  let model := Agent.model self in
  let temperature := default (VFloat "0.7") (Agent.temperature self) in
  let max_tokens := Agent.max_tokens self in
  let out := Agent.chat self message history stream w in
  Agent.build_messages self message history = expected /\
  (forall service,
      (Agent.ai_service self w).1 = Ok service ->
      out =
      if stream
      then (full_content ←
              (chunks ← OpenAIService.complete_stream service expected model
                          temperature max_tokens ∅;
               full_content ← async_for chunks Agent.stream_body EmptyString;
               print newline;;
               mret full_content);
            mret (VStr full_content)) w
      else (response ← OpenAIService.complete service expected model temperature
                         max_tokens ∅;
            mret (CompletionResponse.content response)) w) /\
  (exists sent,
      World.calls out.2 = World.calls w ++ sent /\
      Forall (fun req => Http.json req !! "messages" = Some wire) sent /\
      (forall service,
          (Agent.ai_service self w).1 = Ok service ->
          if stream then length sent = 1%nat else (1 <= length sent <= 3)%nat)) /\
  head expected = Some (Message.Build "system" (Agent.get_system_prompt self)) /\
  filter (fun m => Message.role m = "system") expected
  = [Message.Build "system" (Agent.get_system_prompt self)] /\
  last expected = Some (Message.Build "user" message).
Proof.
  intros Hhist expected wire model temperature max_tokens out.
  assert (Hbuild : Agent.build_messages self message history = expected).
  { subst expected. unfold Agent.build_messages.
    destruct history as [[| m h] |]; reflexivity. }
  split; [exact Hbuild |]. split; [| split; [| split; [reflexivity | split]]].
  - intros service Hsvc. subst out.
    unfold Agent.chat, Agent.chat_stream, Agent.chat_complete.
    rewrite Hbuild.
    destruct stream; unfold mbind, M_bind;
      rewrite (ai_service_run _ _ _ Hsvc); reflexivity.
  - subst out. destruct (chat_calls self message history stream w)
      as (sent & Hcalls & Hall & Hcount).
    rewrite Hbuild in Hall. exists sent. auto.
  - subst expected. cbn [app]. rewrite filter_cons_True by reflexivity.
    f_equal. rewrite filter_app, filter_cons_False, filter_nil, app_nil_r by discriminate.
    clear Hbuild. induction Hhist as [| m h Hm _ IH]; [reflexivity |].
    rewrite filter_cons_False by exact Hm. exact IH.
  - subst expected. rewrite app_assoc. apply last_snoc.
Qed.

Lemma chat_message_list_witness :
  let out :=
    Agent.chat Scenario.default_agent "more" (Some Scenario.history) true
      (Scenario.world Scenario.streaming []) in
  exists req,
    World.calls out.2 = [] ++ [req] /\
    Http.json req !! "messages"
    = Some (VList [VDict [("role", VStr "system");
                          ("content", VStr "You are a helpful AI assistant.")];
                   VDict [("role", VStr "user"); ("content", VStr "hi")];
                   VDict [("role", VStr "assistant"); ("content", VStr "hi there")];
                   VDict [("role", VStr "user"); ("content", VStr "more")]]).
Proof.
  destruct (chat_message_list Scenario.default_agent "more" (Some Scenario.history)
              true (Scenario.world Scenario.streaming []))
    as (_ & _ & (sent & Hcalls & Hall & Hcount) & _).
  - repeat constructor; discriminate.
  - specialize (Hcount Scenario.service eq_refl). cbn beta iota in Hcount.
    destruct sent as [| req [| req' sent]]; try discriminate Hcount.
    exists req. split; [exact Hcalls |].
    apply Forall_cons in Hall as [Hreq _]. exact Hreq.
Defined.

(** *** The REPL session *)

(** Saving never raises and leaves the session object as it is: a refused
    INSERT is caught, logged and reported. *)
Lemma save_session_run st :
  let s := REPLSession.self st in
  let w := REPLSession.world st in
  let row :=
    SessionModel.Build (REPLSession.session_id s)
      ("REPL Session - " +:+ World.utcnow w) (Agent.id (REPLSession.agent s))
      ((fun msg => (Message.role msg, Message.content msg, World.utcnow w))
         <$> REPLSession.messages s) in
  REPLSession.save_session st =
  (Ok tt,
   REPLSession.BuildState s
     (match REPLSession.messages s with
      | [] => World.set_console (fun l => l ++ [MsgNoMessagesToSave]) w
      | _ =>
          match World.sessions w !! REPLSession.session_id s with
          | None =>
              World.set_console
                (fun l => l ++ [MsgSessionSaved (REPLSession.session_id s)])
                (World.set_sessions (insert (REPLSession.session_id s) row) w)
          | Some _ =>
              World.set_console (fun l => l ++ [MsgSaveFailed IntegrityError])
                (World.set_log (fun l => l ++ [LogSaveFailed IntegrityError]) w)
          end
      end)).
Proof.
  destruct st as [s w]. cbn zeta. cbn [REPLSession.self REPLSession.world].
  unfold REPLSession.save_session, mbind, M_bind, gets.
  cbn [REPLSession.self REPLSession.world].
  destruct (REPLSession.messages s) as [| m ms] eqn:Hm; [reflexivity |].
  unfold try, REPLSession.lift, REPLSession.add_and_commit, mbind, M_bind, gets.
  cbn [REPLSession.self REPLSession.world SessionModel.id].
  destruct (World.sessions w !! REPLSession.session_id s); reflexivity.
Qed.

Lemma auto_save_run st :
  let s := REPLSession.self st in
  let w := REPLSession.world st in
  REPLSession.auto_save st =
  if (Config.auto_save (World.config w)
      && negb (bool_decide (REPLSession.messages s = [])))%bool
  then REPLSession.save_session st
  else (Ok tt, st).
Proof.
  destruct st as [s w]. cbn zeta. cbn [REPLSession.self REPLSession.world].
  unfold REPLSession.auto_save, REPLSession.lift, mbind, M_bind, gets.
  cbn [REPLSession.self REPLSession.world].
  destruct (Config.auto_save (World.config w)
            && negb (bool_decide (REPLSession.messages s = [])))%bool; reflexivity.
Qed.

Lemma auto_save_keeps_self st :
  exists w', REPLSession.auto_save st = (Ok tt, REPLSession.BuildState (REPLSession.self st) w').
Proof.
  rewrite auto_save_run. cbn zeta.
  destruct (_ && _)%bool.
  - rewrite save_session_run. eexists. reflexivity.
  - destruct st. eexists. reflexivity.
Qed.

(** The welcome: printed whole when the line with the agent's name and
    type renders; otherwise its first line is out and [MarkupError] is
    raised. *)
Lemma print_welcome_run st :
  let s := REPLSession.self st in
  let welcome :=
    MsgWelcome (Agent.name (REPLSession.agent s)) (Agent.type (REPLSession.agent s)) in
  REPLSession.print_welcome st =
  if renders (REPLSession.world st) welcome
  then (Ok tt,
        REPLSession.BuildState s
          (World.set_console (fun l => l ++ [welcome]) (REPLSession.world st)))
  else (Raise MarkupError,
        REPLSession.BuildState s
          (World.set_console (fun l => l ++ [MsgWelcomeTitle]) (REPLSession.world st))).
Proof.
  destruct st as [s w]. cbn zeta. cbn [REPLSession.self REPLSession.world].
  unfold REPLSession.print_welcome, REPLSession.lift, console_print, mbind, M_bind, gets.
  cbn [REPLSession.self REPLSession.world].
  destruct (renders w _) eqn:Hwelcome; cbn [REPLSession.self REPLSession.world].
  - rewrite Hwelcome. reflexivity.
  - reflexivity.
Qed.

(** [run] when the welcome does not render: nothing is read, and the
    [finally] block, which belongs to the [try] after the welcome, does
    not run. *)
Lemma run_without_welcome inputs st :
  let s := REPLSession.self st in
  renders (REPLSession.world st)
    (MsgWelcome (Agent.name (REPLSession.agent s)) (Agent.type (REPLSession.agent s)))
  = false ->
  REPLSession.run inputs st
  = (Raise MarkupError,
     REPLSession.BuildState s
       (World.set_console (fun l => l ++ [MsgWelcomeTitle]) (REPLSession.world st))).
Proof.
  cbn zeta. intros Hwelcome. unfold REPLSession.run, mbind, M_bind.
  rewrite print_welcome_run. cbn zeta. rewrite Hwelcome. reflexivity.
Qed.

(** [run] once the welcome is out, with the world the [finally] block
    leaves: the loop, the save on close, goodbye, and then whatever the
    loop came to. *)
Lemma run_after_welcome inputs st :
  let s := REPLSession.self st in
  let welcome :=
    MsgWelcome (Agent.name (REPLSession.agent s)) (Agent.type (REPLSession.agent s)) in
  let started :=
    REPLSession.BuildState s
      (World.set_console (fun l => l ++ [welcome]) (REPLSession.world st)) in
  let left := (REPLSession.loop inputs started).2 in
  renders (REPLSession.world st) welcome = true ->
  REPLSession.run inputs st
  = ((REPLSession.loop inputs started).1,
     REPLSession.BuildState (REPLSession.self left)
       (World.set_console (fun l => l ++ [MsgGoodbye])
          (REPLSession.world (REPLSession.auto_save left).2))).
Proof.
  cbn zeta. intros Hwelcome. unfold REPLSession.run, mbind, M_bind.
  rewrite print_welcome_run. cbn zeta. rewrite Hwelcome.
  unfold try. destruct (REPLSession.loop inputs _) as [r st1]. cbn [fst snd].
  destruct (auto_save_keeps_self st1) as (w1 & ->).
  cbn [snd REPLSession.self REPLSession.world].
  unfold REPLSession.lift, console_print, of_result.
  cbn [renders markup_of REPLSession.self REPLSession.world].
  destruct r as [[] | e]; reflexivity.
Qed.

(** A chat turn, whole: the user message is appended, the agent is called
    in streaming mode with the transcript as it was before the turn for
    history, and the answer, if one comes, is appended as an assistant
    message; if the call raises, the user message stays where it is. *)
Lemma chat_turn_run user_input st :
  let s := REPLSession.self st in
  REPLSession.chat_turn user_input st =
  match Agent.chat_stream (REPLSession.agent s) user_input
          (Some (REPLSession.messages s))
          (World.set_console (fun l => l ++ [MsgAssistant]) (REPLSession.world st))
  with
  | (Ok text, w') =>
      (Ok tt,
       REPLSession.BuildState
         (REPLSession.Build (REPLSession.agent s) (REPLSession.session_id s)
            ((REPLSession.messages s ++ [Message.Build "user" user_input])
             ++ [Message.Build "assistant" text]))
         (World.set_console (fun l => l ++ [MsgBlank]) w'))
  | (Raise e, w') =>
      (Raise e,
       REPLSession.BuildState
         (REPLSession.Build (REPLSession.agent s) (REPLSession.session_id s)
            (REPLSession.messages s ++ [Message.Build "user" user_input]))
         w')
  end.
Proof.
  destruct st as [s w]. cbn zeta. cbn [REPLSession.self REPLSession.world].
  unfold REPLSession.chat_turn, REPLSession.set_messages, REPLSession.set_self,
    REPLSession.lift, console_print, modify, mbind, M_bind, gets.
  cbn [REPLSession.self REPLSession.world REPLSession.agent REPLSession.messages
       REPLSession.session_id renders markup_of].
  rewrite removelast_last.
  destruct (Agent.chat_stream _ _ _ _) as [[text | e] w']; reflexivity.
Qed.


(** On leaving the loop, a save is attempted exactly when auto-save is on
    and the transcript is not empty; the attempt stores the transcript
    when the sessions table has no row with the session's identifier. *)
Lemma close_saves_fresh_session st :
  let s := REPLSession.self st in
  let w := REPLSession.world st in
  World.sessions w !! REPLSession.session_id s = None ->
  let w' := REPLSession.world (REPLSession.auto_save st).2 in
  (Config.auto_save (World.config w) = true /\ REPLSession.messages s <> [] ->
   SessionModel.messages <$> (World.sessions w' !! REPLSession.session_id s)
   = Some ((fun msg => (Message.role msg, Message.content msg, World.utcnow w))
             <$> REPLSession.messages s)) /\
  (~ (Config.auto_save (World.config w) = true /\ REPLSession.messages s <> []) ->
   World.sessions w' = World.sessions w).
Proof.
  cbn zeta. intros Hfresh. rewrite auto_save_run. cbn zeta.
  destruct (Config.auto_save (World.config (REPLSession.world st))) eqn:Hauto;
    cbn [andb].
  - destruct (REPLSession.messages (REPLSession.self st)) as [| m ms] eqn:Hm.
    + cbn. split; [intros [_ H]; congruence | reflexivity].
    + cbn [bool_decide decide_rel]. rewrite bool_decide_eq_false_2 by discriminate.
      cbn [negb]. rewrite save_session_run. cbn zeta. rewrite Hm, Hfresh.
      cbn [snd REPLSession.world World.sessions World.set_console World.set_sessions].
      split; [| intros H; exfalso; apply H; split; [reflexivity | discriminate]].
      intros _. rewrite lookup_insert_eq. reflexivity.
  - cbn. split; [intros [H _]; discriminate | reflexivity].
Qed.




(** [/agent <name>] with a name no stored agent has.  When the message
    that says so renders, the command returns normally, the console is told
    that the agent was not found, and the session object (active agent,
    session identifier, transcript) and the rest of the world are as
    before; the loop then reads on.  When the message does not render, the
    command raises [MarkupError] with everything as it was. *)
Lemma agent_unknown_name st command part0 name args :
  split command = part0 :: name :: args ->
  lower part0 = "/agent" ->
  List.find (fun row => String.eqb (AgentModel.name row) name)
    (World.agents (REPLSession.world st)) = None ->
  let st' :=
    REPLSession.BuildState (REPLSession.self st)
      (World.set_console (fun l => l ++ [MsgAgentNotFound name])
         (REPLSession.world st)) in
  REPLSession.handle_command command st
  = (if renders (REPLSession.world st) (MsgAgentNotFound name)
     then (Ok tt, st')
     else (Raise MarkupError, st)) /\
  (renders (REPLSession.world st) (MsgAgentNotFound name) = true ->
   forall text inputs,
     strip text = command ->
     startswith command "/" = true ->
     REPLSession.loop (Line text :: inputs) st = REPLSession.loop inputs st').
Proof.
  intros Hsplit Hcmd Hfind st'.
  assert (Hrun : REPLSession.handle_command command st
                 = (if renders (REPLSession.world st) (MsgAgentNotFound name)
                    then (Ok tt, st')
                    else (Raise MarkupError, st))).
  { unfold REPLSession.handle_command. rewrite Hsplit, Hcmd.
    cbn [String.eqb Ascii.eqb Bool.eqb orb].
    unfold mbind, M_bind, REPLSession.lift, AgentManager.get_agent, gets, mret, M_ret.
    unfold mbind, M_bind. cbn beta iota. rewrite Hfind.
    cbn [fmap option_fmap option_map]. unfold console_print.
    destruct (renders _ _); [reflexivity | destruct st; reflexivity]. }
  split; [exact Hrun |].
  intros Hrenders text inputs Hstrip Hslash.
  rewrite Hrenders in Hrun.
  cbn [REPLSession.loop]. unfold mbind, M_bind, try.
  cbn [REPLSession.iteration]. rewrite Hstrip, Hslash.
  destruct (String.eqb command EmptyString) eqn:Hempty.
  - apply String.eqb_eq in Hempty. rewrite Hempty in Hslash. discriminate.
  - rewrite Hrun. reflexivity.
Qed.

Example agent_unknown_name_ghost :
  REPLSession.handle_command "/agent ghost" (Scenario.running Scenario.down)
  = (Ok tt,
     REPLSession.BuildState Scenario.session
       (World.set_console (fun l => l ++ [MsgAgentNotFound "ghost"])
          (Scenario.world Scenario.down [Scenario.default_row]))).
Proof. reflexivity. Qed.

(** [/history] over a transcript whose second message holds a closing
    tag that closes nothing: the title, the first message and the role of
    the second are out when the print of its content raises. *)
Example history_with_markup :
  let st :=
    REPLSession.BuildState
      (REPLSession.Build Scenario.default_agent "session-0"
         [Message.Build "user" "hi"; Message.Build "assistant" "see [/b]"])
      (Scenario.world Scenario.down [Scenario.default_row]) in
  let out := REPLSession.handle_command "/history" st in
  out.1 = Raise MarkupError /\
  World.console (REPLSession.world out.2)
  = [MsgHistoryTitle; MsgHistoryRole "user"; MsgHistoryContent "hi";
     MsgHistoryRole "assistant"].
Proof. cbn zeta. split; reflexivity. Qed.

(** C8, at the failing input.  The name typed is [[/b]]: no agent has it,
    and the message that is to say so interpolates it into console markup,
    where it reads as a closing tag that closes nothing.  The print raises
    [MarkupError], which the loop does not catch: the command does not
    return, the session is closed, and the [/help] typed next is never
    handled. *)
Theorem unknown_agent_markup_name_is_fatal :
  let st := Scenario.running Scenario.down in
  split "/agent [/b]" = ["/agent"; "[/b]"] /\
  (AgentManager.get_agent "[/b]" (REPLSession.world st)).1 = Ok None /\
  World.rich (REPLSession.world st) (Markup.not_found "[/b]") = false /\
  REPLSession.handle_command "/agent [/b]" st = (Raise MarkupError, st) /\
  let out := REPLSession.run [Line "/agent [/b]"; Line "/help"] st in
  out.1 = Raise MarkupError /\
  REPLSession.self out.2 = REPLSession.self st /\
  World.console (REPLSession.world out.2)
  = [MsgWelcome "default" "general"; MsgSessionSaved "session-0"; MsgGoodbye].
Proof. cbn zeta. repeat apply conj; reflexivity. Qed.

(** *** Closing the session *)

(** C9, at the failing input.  Auto-save is on.  The user chats, types
    [/save], chats again and types [/exit].  On close the transcript holds
    four messages; the save that [run] attempts inserts a second row with
    the session's identifier, which the table refuses: the failure is
    logged and reported, and the table still holds the two messages that
    [/save] stored. *)
Theorem close_after_save_loses_transcript :
  let out :=
    REPLSession.run [Line "hi"; Line "/save"; Line "more"; Line "/exit"]
      (Scenario.fresh Scenario.streaming) in
  out.1 = Ok tt /\
  Config.auto_save (World.config (REPLSession.world out.2)) = true /\
  REPLSession.messages (REPLSession.self out.2)
  = [Message.Build "user" "hi"; Message.Build "assistant" "hi there";
     Message.Build "user" "more"; Message.Build "assistant" "hi there"] /\
  SessionModel.messages <$> (World.sessions (REPLSession.world out.2) !! "session-0")
  = Some [("user", "hi", "2024-01-01T00:00:00");
          ("assistant", "hi there", "2024-01-01T00:00:00")] /\
  World.console (REPLSession.world out.2)
  = [MsgWelcome "default" "general"; MsgAssistant; MsgBlank;
     MsgSessionSaved "session-0"; MsgAssistant; MsgBlank;
     MsgSaveFailed IntegrityError; MsgGoodbye] /\
  World.log (REPLSession.world out.2) = [LogSaveFailed IntegrityError].
Proof. cbn zeta. repeat apply conj; vm_compute; reflexivity. Qed.

(** *** The transcripts the REPL sends *)

(** Printing leaves the session object alone, whether it raises or
    not. *)
Lemma lift_keeps_self {A} (m : M World.t A) st :
  REPLSession.self (REPLSession.lift m st).2 = REPLSession.self st.
Proof. unfold REPLSession.lift. destruct (m (REPLSession.world st)). reflexivity. Qed.

Lemma print_history_keeps_self st :
  REPLSession.self (REPLSession.print_history st).2 = REPLSession.self st.
Proof.
  unfold REPLSession.print_history, mbind, M_bind, gets.
  destruct (REPLSession.messages (REPLSession.self st)) as [| m ms];
    [apply lift_keeps_self |].
  pose proof (lift_keeps_self (console_print MsgHistoryTitle) st) as Htitle.
  destruct (REPLSession.lift (console_print MsgHistoryTitle) st) as [[[] | e] st1];
    cbn [snd] in Htitle |- *; [| exact Htitle].
  rewrite lift_keeps_self. exact Htitle.
Qed.

(** A command leaves the transcript as it is or empties it. *)
Lemma handle_command_transcript command st :
  let st' := (REPLSession.handle_command command st).2 in
  REPLSession.messages (REPLSession.self st') = REPLSession.messages (REPLSession.self st)
  \/ REPLSession.messages (REPLSession.self st') = [].
Proof.
  cbn zeta. unfold REPLSession.handle_command.
  destruct (split command) as [| part0 args]; [left; reflexivity |].
  destruct (_ || _)%bool; [left; reflexivity |].
  destruct (String.eqb _ "/help"); [left; reflexivity |].
  destruct (String.eqb _ "/clear"); [right; reflexivity |].
  destruct (String.eqb _ "/save"); [left; rewrite save_session_run; reflexivity |].
  destruct (String.eqb _ "/history");
    [left; rewrite print_history_keeps_self; reflexivity |].
  destruct (String.eqb _ "/agent");
    [| left; rewrite lift_keeps_self; reflexivity].
  destruct args as [| new_agent_name args].
  { left. unfold mbind, M_bind, gets. rewrite lift_keeps_self. reflexivity. }
  unfold mbind, M_bind, REPLSession.lift, AgentManager.get_agent, gets, mret, M_ret.
  unfold mbind, M_bind. cbn beta iota.
  destruct (List.find _ _) as [row |].
  2: { left. cbn [fmap option_fmap option_map]. unfold console_print.
       destruct (renders _ _); reflexivity. }
  cbn [fmap option_fmap option_map].
  destruct (auto_save_keeps_self
              (REPLSession.BuildState (REPLSession.self st) (REPLSession.world st)))
    as (w1 & ->).
  right. unfold AgentManager.uuid4, REPLSession.set_self, modify, console_print.
  cbn [REPLSession.self REPLSession.world fst snd].
  destruct (renders _ _); reflexivity.
Qed.

(** The loop keeps the transcript conversational. *)
Lemma loop_conversational inputs :
  forall st,
    conversational (REPLSession.messages (REPLSession.self st)) ->
    conversational
      (REPLSession.messages (REPLSession.self (REPLSession.loop inputs st).2)).
Proof.
  induction inputs as [| input rest IH]; intros st Hconv; [exact Hconv |].
  cbn [REPLSession.loop]. unfold mbind, M_bind, try.
  assert (Hstep : conversational
            (REPLSession.messages
               (REPLSession.self (REPLSession.iteration input st).2))).
  { destruct input as [text |]; [| exact Hconv]. cbn [REPLSession.iteration].
    destruct (String.eqb (strip text) EmptyString); [exact Hconv |].
    destruct (startswith (strip text) "/").
    - destruct (handle_command_transcript (strip text) st) as [-> | ->];
        [exact Hconv | constructor].
    - rewrite chat_turn_run. cbn zeta.
      assert (Huser : conversational [Message.Build "user" (strip text)])
        by (constructor; [left; reflexivity | constructor]).
      destruct (Agent.chat_stream _ _ _ _) as [[text' | e] w']; cbn;
        unfold conversational in *; rewrite ?Forall_app; repeat split;
        try assumption.
      constructor; [right; reflexivity | constructor]. }
  destruct (REPLSession.iteration input st) as [[[] | e] st1]; cbn [snd] in Hstep.
  - apply IH. exact Hstep.
  - destruct e; try exact Hstep.
    unfold REPLSession.lift, console_print, modify. cbn beta iota.
    apply IH. exact Hstep.
Qed.

(** A conversational transcript holds no system message: the history of
    every chat turn of the REPL is one that [Agent.chat] completes to a
    list with a single system message. *)
Lemma conversational_no_system transcript :
  conversational transcript ->
  Forall (fun m => Message.role m <> "system") transcript.
Proof.
  intros H. eapply Forall_impl; [exact H |].
  intros m [-> | ->]; discriminate.
Qed.

(* ===================================================================== *)
(** ** Further properties of the client *)
(* ===================================================================== *)

Lemma recorded_retry_loop_ge self payload attempts w :
  (recorded w <= recorded (OpenAIService.retry_loop self payload attempts w).2)%nat.
Proof.
  destruct (retry_loop_calls self payload attempts w) as (new & Hcalls & _).
  unfold recorded. rewrite Hcalls, length_app. lia.
Qed.

(** The attempts of the loop when every one of them raises an
    [Exception]. *)
Lemma retry_loop_all_raise self payload m :
  forall a w,
    Z.of_nat (a + m) = OpenAIService.max_retries self ->
    (0 < m)%nat ->
    (forall i, (i < m)%nat ->
       exists e, attempt_result (upcoming w i) = Raise e /\ is_Exception e = true) ->
    forall e,
      attempt_result (upcoming w (m - 1)) = Raise e ->
      let out := OpenAIService.retry_loop self payload (Z.of_nat <$> seq a m) w in
      out.1 = Raise e /\ recorded out.2 = (recorded w + m)%nat.
Proof.
  induction m as [| m IH]; intros a w Hn Hm Hall e Hlast; [lia |].
  cbn zeta. cbn [seq fmap list_fmap].
  pose proof (retry_loop_step self payload (Z.of_nat a) (Z.of_nat <$> seq (S a) m) w)
    as Hstep.
  cbn zeta in Hstep.
  destruct (Hall 0%nat ltac:(lia)) as (e0 & He0 & Hexc0).
  rewrite He0, Hexc0 in Hstep. destruct Hstep as (w2 & Hrec & Hup & ->).
  destruct (Z.of_nat a =? OpenAIService.max_retries self - 1) eqn:Hfinal.
  - apply Z.eqb_eq in Hfinal. assert (m = 0%nat) by lia. subst m.
    cbn in Hlast. cbn [fst snd]. split; [congruence | lia].
  - apply Z.eqb_neq in Hfinal. assert (0 < m)%nat by lia.
    destruct (IH (S a) w2 ltac:(lia) ltac:(lia)) with (e := e) as [-> ->].
    + intros i Hi. rewrite Hup. apply Hall. lia.
    + rewrite Hup. replace (S (m - 1)) with (S m - 1)%nat by lia. exact Hlast.
    + split; [reflexivity | lia].
Qed.

(** X1.  [complete] retries on every failure that is an [Exception], a
    2xx answer with an undecodable or incomplete body included: when each
    of the [n >= 1] attempts raises one, the error of the last attempt is
    raised after exactly [n] requests. *)
Theorem complete_retries_every_exception self messages model temperature max_tokens
    kwargs w (n : Z) e :
  OpenAIService.max_retries self = n ->
  1 <= n ->
  (forall i, Z.of_nat i < n ->
     exists e', attempt_result (upcoming w i) = Raise e' /\ is_Exception e' = true) ->
  attempt_result (upcoming w (Z.to_nat n - 1)) = Raise e ->
  let out :=
    OpenAIService.complete self messages model temperature max_tokens kwargs w in
  out.1 = Raise e /\ recorded out.2 = (recorded w + Z.to_nat n)%nat.
Proof.
  intros Hn Hpos Hall Hlast. unfold OpenAIService.complete, range. rewrite Hn.
  apply retry_loop_all_raise; try assumption; try lia.
  intros i Hi. apply Hall. lia.
Qed.

Lemma complete_retries_every_exception_witness :
  let out :=
    OpenAIService.complete Scenario.service Scenario.hello None (VFloat "0.7") None ∅
      (Scenario.world Scenario.garbled []) in
  out.1 = Raise JSONDecodeError /\ recorded out.2 = (0 + 3)%nat.
Proof.
  apply (complete_retries_every_exception Scenario.service Scenario.hello None
           (VFloat "0.7") None ∅ (Scenario.world Scenario.garbled []) 3
           JSONDecodeError).
  - reflexivity.
  - lia.
  - intros i _. exists JSONDecodeError. split; vm_compute; reflexivity.
  - vm_compute. reflexivity.
Defined.



(** What [complete] came to without an error record for its last request:
    a result, or something outside the [Exception] hierarchy. *)
Lemma retry_loop_log self payload m :
  forall a w,
    Z.of_nat (a + m) = OpenAIService.max_retries self ->
    let out := OpenAIService.retry_loop self payload (Z.of_nat <$> seq a m) w in
    exists new,
      World.log out.2 = World.log w ++ new /\
      Forall (fun r => is_attempt_record (OpenAIService.max_retries self) r = true) new /\
      (length new +
       match out.1 with
       | Ok _ => 1
       | Raise e => if is_Exception e then 0 else 1
       end)%nat
      = (recorded out.2 - recorded w)%nat.
Proof.
  induction m as [| m IH]; intros a w Hn; cbn zeta.
  - exists []. cbn. rewrite app_nil_r.
    split; [reflexivity | split; [constructor | lia]].
  - cbn [seq fmap list_fmap OpenAIService.retry_loop].
    unfold mbind, M_bind, try. rewrite attempt_request_run.
    set (w1 := World.set_calls _ w).
    assert (Hw1 : recorded w1 = S (recorded w)) by apply recorded_set_calls_snoc.
    destruct (attempt_result (upcoming w 0)) as [c | e].
    + exists []. unfold mret, M_ret. cbn [fst snd length]. rewrite app_nil_r, Hw1.
      split; [reflexivity | split; [constructor | lia]].
    + assert (Hrec : forall r,
                 is_attempt_record (OpenAIService.max_retries self) r = true ->
                 let w2 := World.set_log (fun l => l ++ [r]) w1 in
                 let out :=
                   (if Z.of_nat a =? OpenAIService.max_retries self - 1
                    then fun s : World.t => (Raise e, s)
                    else OpenAIService.retry_loop self payload
                           (Z.of_nat <$> seq (S a) m)) w2 in
                 is_Exception e = true ->
                 exists new,
                   World.log out.2 = World.log w ++ new /\
                   Forall (fun r => is_attempt_record (OpenAIService.max_retries self) r
                                    = true) new /\
                   (length new +
                    match out.1 with
                    | Ok _ => 1
                    | Raise e' => if is_Exception e' then 0 else 1
                    end)%nat
                   = (recorded out.2 - recorded w)%nat).
      { intros r Hr w2 out Hexc. subst out.
        destruct (Z.of_nat a =? OpenAIService.max_retries self - 1).
        - exists [r]. cbn [fst snd length]. rewrite Hexc.
          change (recorded w2) with (recorded w1). rewrite Hw1.
          split; [reflexivity | split; [repeat constructor; exact Hr | lia]].
        - destruct (IH (S a) w2 ltac:(lia)) as (new & Hlog & Hall & Hcount).
          pose proof (recorded_retry_loop_ge self payload
                        (Z.of_nat <$> seq (S a) m) w2) as Hge.
          change (recorded w2) with (recorded w1) in *.
          exists (r :: new). rewrite Hlog. cbn [World.log World.set_log w2].
          rewrite <- List.app_assoc.
          split; [reflexivity | split; [constructor; assumption |]].
          cbn [length]. lia. }
      assert (Hbound : (1 <=? Z.of_nat a + 1) && (Z.of_nat a + 1 <=? OpenAIService.max_retries self)
                       && (OpenAIService.max_retries self =? OpenAIService.max_retries self) = true).
      { rewrite Z.eqb_refl, andb_true_r. apply andb_true_intro. split;
          apply Z.leb_le; lia. }
      destruct e; cbn [is_Exception]; unfold logger, modify, raise; cbn beta iota;
        try (apply Hrec; [exact Hbound | reflexivity]);
        exists []; cbn [fst snd is_Exception length]; rewrite app_nil_r, Hw1;
        (split; [reflexivity | split; [constructor | lia]]).
Qed.

(** X3.  [complete] writes one error record for every attempt that failed
    with an [Exception], numbered within [1 .. max_retries], and nothing
    else: the records added count the requests sent, less the one that
    returned a result or was interrupted. *)
Theorem complete_logs_each_failure self messages model temperature max_tokens kwargs w :
  let out :=
    OpenAIService.complete self messages model temperature max_tokens kwargs w in
  exists new,
    World.log out.2 = World.log w ++ new /\
    Forall (fun r => is_attempt_record (OpenAIService.max_retries self) r = true) new /\
    (length new +
     match out.1 with
     | Ok _ => 1
     | Raise e => if is_Exception e then 0 else 1
     end)%nat
    = (recorded out.2 - recorded w)%nat.
Proof.
  cbn zeta. unfold OpenAIService.complete, range.
  destruct (Z_le_gt_dec 0 (OpenAIService.max_retries self)) as [Hpos | Hneg].
  - apply (retry_loop_log self _ (Z.to_nat (OpenAIService.max_retries self)) 0%nat w).
    lia.
  - replace (Z.to_nat (OpenAIService.max_retries self)) with 0%nat by lia.
    exists []. cbn. rewrite app_nil_r.
    split; [reflexivity | split; [constructor | lia]].
Qed.

(** X4.  [complete_stream] sends one request, whatever comes of it, with
    the streaming flag set: a failure of the transport or a status outside
    2xx is raised as it is, without a retry and without a log record;
    otherwise the generator over the body's lines is returned. *)
Theorem complete_stream_single_request self messages model temperature max_tokens w :
  let out :=
    OpenAIService.complete_stream self messages model temperature max_tokens ∅ w in
  (exists req,
      World.calls out.2 = World.calls w ++ [req] /\
      Http.json req !! "stream" = Some (VBool true)) /\
  World.log out.2 = World.log w /\
  out.1 =
  match upcoming w 0 with
  | Http.Fail e => Raise e
  | Http.Respond r =>
      if Http.is_success r
      then Ok (OpenAIService.decode (Http.lines r))
      else Raise (HTTPStatusError (Http.status_code r))
  end.
Proof.
  cbn zeta. split; [| split].
  - eexists. split; [apply complete_stream_calls |]. cbn [Http.json].
    unfold OpenAIService.build_payload. cbn zeta. rewrite (left_id_L ∅ (∪)).
    destruct max_tokens as [n |]; [destruct (n =? 0) |];
      rewrite !lookup_insert_ne by discriminate; apply lookup_singleton_eq.
  - unfold OpenAIService.complete_stream, mbind, M_bind. rewrite send_run.
    destruct (upcoming w 0) as [e | r]; [reflexivity |].
    unfold of_result, Http.raise_for_status. destruct (Http.is_success r); reflexivity.
  - unfold OpenAIService.complete_stream, mbind, M_bind. rewrite send_run.
    destruct (upcoming w 0) as [e | r]; [reflexivity |].
    unfold of_result, Http.raise_for_status. destruct (Http.is_success r); reflexivity.
Qed.

(* ===================================================================== *)
(** ** Further properties of the chunk decoder *)
(* ===================================================================== *)

Lemma getitem_raises v k e :
  getitem v k = Raise e -> e = KeyError (VStr k) \/ e = TypeError.
Proof.
  destruct v; cbn; try solve [intros H; inversion H; auto].
  destruct (dict_get k entries); intros H; inversion H; auto.
Qed.

Lemma getitem0_raises v e :
  getitem0 v = Raise e -> e = IndexError \/ e = KeyError (VInt 0) \/ e = TypeError.
Proof.
  destruct v as [| | | | s | items |]; cbn; try solve [intros H; inversion H; auto].
  - destruct s; intros H; inversion H; auto.
  - destruct items; intros H; inversion H; auto.
Qed.

(** What the [try] body of the decoder can raise once the text of the
    event is decoded: the subscripts raise [KeyError], [IndexError] or
    [TypeError], the membership test [TypeError]. *)
Lemma chunk_of_decoded_raises line data e :
  Json.loads (drop_chars 6 line) = Ok data ->
  OpenAIService.chunk_of line = Raise e ->
  (exists key, e = KeyError key) \/ e = IndexError \/ e = TypeError.
Proof.
  unfold OpenAIService.chunk_of, mbind, Result_bind. intros ->.
  destruct (getitem data "choices") as [choices | e0] eqn:H1.
  2: { intros H. inversion H; subst.
       apply getitem_raises in H1 as [-> | ->]; eauto. }
  destruct (getitem0 choices) as [choice | e0] eqn:H2.
  2: { intros H. inversion H; subst.
       apply getitem0_raises in H2 as [-> | [-> | ->]]; eauto. }
  destruct (getitem choice "delta") as [delta | e0] eqn:H3.
  2: { intros H. inversion H; subst.
       apply getitem_raises in H3 as [-> | ->]; eauto. }
  destruct (contains "content" delta) as [has | e0] eqn:H4.
  2: { intros H. inversion H; subst. destruct delta; cbn in H4; inversion H4; auto. }
  destruct has; [| discriminate].
  destruct (getitem delta "content") as [content | e0] eqn:H5; [discriminate |].
  intros H. inversion H; subst. apply getitem_raises in H5 as [-> | ->]; eauto.
Qed.

(** X5.  An event whose text [json.loads] decodes, to whatever value: of
    what its subscripts can raise ([KeyError], [IndexError], [TypeError]),
    [TypeError] is the only exception that leaves the decoder; the other
    two are caught, logged as a warning, and the decoder reads on. *)
Theorem decoded_event_raises_only_type_error line rest data :
  is_event_line line = true ->
  Json.loads (drop_chars 6 line) = Ok data ->
  (forall e, OpenAIService.chunk_of line = Raise e ->
     (exists key, e = KeyError key) \/ e = IndexError \/ e = TypeError) /\
  (forall e, OpenAIService.chunk_of line = Raise e -> e <> TypeError ->
     OpenAIService.decode (line :: rest)
     = Log (LogChunkWarning e) (OpenAIService.decode rest)) /\
  (forall e, ending (OpenAIService.decode [line]) = Some e -> e = TypeError).
Proof.
  unfold is_event_line. intros Hline Hloads.
  apply andb_true_iff in Hline as [Hline Hp].
  apply andb_true_iff in Hline as [He Hs].
  apply negb_true_iff in He, Hs.
  split; [| split].
  - intros e. apply chunk_of_decoded_raises with (data := data). exact Hloads.
  - intros e Hchunk Hne. rewrite decode_cons_event by assumption. rewrite Hchunk.
    destruct (chunk_of_decoded_raises _ _ _ Hloads Hchunk) as [[key ->] | [-> | ->]];
      [reflexivity | reflexivity | congruence].
  - intros e. rewrite decode_cons_event by assumption.
    destruct (OpenAIService.chunk_of line) as [[content |] | e0] eqn:Hchunk;
      cbn [ending OpenAIService.decode]; try discriminate.
    destruct (chunk_of_decoded_raises _ _ _ Hloads Hchunk) as [[key ->] | [-> | ->]];
      cbn [OpenAIService.decoder_catches ending OpenAIService.decode];
      try discriminate.
    intros H. inversion H. reflexivity.
Qed.

Lemma decoded_event_raises_only_type_error_witness :
  ending (OpenAIService.decode [Json.dq "data: {'choices': null}"]) = Some TypeError /\
  TypeError = TypeError.
Proof.
  assert (H : ending (OpenAIService.decode [Json.dq "data: {'choices': null}"])
              = Some TypeError) by (vm_compute; reflexivity).
  split; [exact H |].
  destruct (decoded_event_raises_only_type_error (Json.dq "data: {'choices': null}") []
              (VDict [("choices", VNone)])) as (_ & _ & Honly);
    [vm_compute; reflexivity | vm_compute; reflexivity |].
  exact (Honly TypeError H).
Defined.

(** X6.  The decoder looks into event lines only: blank lines, the
    sentinel and lines without the event prefix (comments, [event:]
    fields, a prefix without its space) change nothing of what it does. *)
Theorem decoder_ignores_other_lines lines :
  OpenAIService.decode lines
  = OpenAIService.decode (List.filter is_event_line lines).
Proof.
  induction lines as [| line rest IH]; [reflexivity |].
  cbn [List.filter]. unfold is_event_line at 1. unfold sentinel.
  destruct (String.eqb line EmptyString) eqn:He;
    destruct (String.eqb line "data: [DONE]") eqn:Hs;
    destruct (startswith line "data: ") eqn:Hp;
    cbn [negb andb];
    cbn [OpenAIService.decode]; rewrite ?He, ?Hs, ?Hp; cbn [orb]; rewrite ?IH;
    reflexivity.
Qed.

Lemma decode_app_normal before after :
  ending (OpenAIService.decode before) = None ->
  chunks_of (OpenAIService.decode (before ++ after))
  = chunks_of (OpenAIService.decode before) ++ chunks_of (OpenAIService.decode after) /\
  records_of (OpenAIService.decode (before ++ after))
  = records_of (OpenAIService.decode before) ++ records_of (OpenAIService.decode after) /\
  ending (OpenAIService.decode (before ++ after))
  = ending (OpenAIService.decode after).
Proof.
  induction before as [| line rest IH]; intros Hend; [auto |].
  cbn [app OpenAIService.decode] in *.
  destruct (_ || _)%bool; [apply IH; exact Hend |].
  destruct (startswith line "data: "); [| apply IH; exact Hend].
  destruct (OpenAIService.chunk_of line) as [[content |] | e0].
  - cbn in *. destruct (IH Hend) as (-> & -> & ->). auto.
  - apply IH; exact Hend.
  - destruct (OpenAIService.decoder_catches e0); [| discriminate].
    cbn in *. destruct (IH Hend) as (-> & -> & ->). auto.
Qed.

(** X7.  Decoding composes: when the lines received so far decode without
    an exception, appending further lines appends what those decode to,
    chunks and warnings alike. *)
Theorem decoder_composes before after :
  ending (OpenAIService.decode before) = None ->
  chunks_of (OpenAIService.decode (before ++ after))
  = chunks_of (OpenAIService.decode before) ++ chunks_of (OpenAIService.decode after) /\
  records_of (OpenAIService.decode (before ++ after))
  = records_of (OpenAIService.decode before) ++ records_of (OpenAIService.decode after) /\
  ending (OpenAIService.decode (before ++ after))
  = ending (OpenAIService.decode after).
Proof. apply decode_app_normal. Qed.

Lemma decoder_composes_witness :
  chunks_of (OpenAIService.decode (Scenario.stream_truncated
                                   ++ Scenario.stream_after_sentinel))
  = chunks_of (OpenAIService.decode Scenario.stream_truncated)
    ++ chunks_of (OpenAIService.decode Scenario.stream_after_sentinel).
Proof.
  apply (decoder_composes Scenario.stream_truncated Scenario.stream_after_sentinel).
  vm_compute. reflexivity.
Defined.

(** X8.  Once a line makes the decoder raise, nothing that follows is
    read: no later chunk, no later warning. *)
Theorem decoder_stops_at_error before after e :
  ending (OpenAIService.decode before) = Some e ->
  OpenAIService.decode (before ++ after) = OpenAIService.decode before.
Proof.
  induction before as [| line rest IH]; intros Hend; [discriminate |].
  cbn [app OpenAIService.decode] in *.
  destruct (_ || _)%bool; [apply IH; exact Hend |].
  destruct (startswith line "data: "); [| apply IH; exact Hend].
  destruct (OpenAIService.chunk_of line) as [[content |] | e0].
  - cbn in Hend. rewrite (IH Hend). reflexivity.
  - apply IH; exact Hend.
  - destruct (OpenAIService.decoder_catches e0); [| reflexivity].
    cbn in Hend. rewrite (IH Hend). reflexivity.
Qed.

Lemma decoder_stops_at_error_witness :
  OpenAIService.decode (Scenario.stream_null_choices ++ [content_event "late"])
  = OpenAIService.decode Scenario.stream_null_choices.
Proof.
  apply (decoder_stops_at_error Scenario.stream_null_choices [content_event "late"]
           TypeError).
  vm_compute. reflexivity.
Defined.

(** X9.  A malformed event that raises one of the exceptions the
    [except] clause names, wherever it stands in a body that decoded
    without an exception so far, is passed over with exactly one warning:
    the chunks are those of the lines before and after it, in order. *)
Theorem malformed_event_is_skipped before bad after e :
  ending (OpenAIService.decode before) = None ->
  is_event_line bad = true ->
  OpenAIService.chunk_of bad = Raise e ->
  OpenAIService.decoder_catches e = true ->
  chunks_of (OpenAIService.decode (before ++ bad :: after))
  = chunks_of (OpenAIService.decode before) ++ chunks_of (OpenAIService.decode after) /\
  records_of (OpenAIService.decode (before ++ bad :: after))
  = records_of (OpenAIService.decode before)
    ++ LogChunkWarning e :: records_of (OpenAIService.decode after) /\
  ending (OpenAIService.decode (before ++ bad :: after))
  = ending (OpenAIService.decode after).
Proof.
  intros Hend Hline Hbad Hcatch.
  destruct (decode_app_normal before (bad :: after) Hend) as (-> & -> & ->).
  unfold is_event_line in Hline.
  apply andb_true_iff in Hline as [Hline Hp].
  apply andb_true_iff in Hline as [He Hs].
  apply negb_true_iff in He, Hs.
  rewrite decode_cons_event by assumption. rewrite Hbad, Hcatch. auto.
Qed.

Lemma malformed_event_is_skipped_witness :
  chunks_of (OpenAIService.decode Scenario.stream_truncated)
  = chunks_of (OpenAIService.decode [content_event "Hel"])
    ++ chunks_of (OpenAIService.decode [content_event "lo"]).
Proof.
  apply (malformed_event_is_skipped [content_event "Hel"]
           (Json.dq "data: {'choices': [{'del") [content_event "lo"] JSONDecodeError);
    vm_compute; reflexivity.
Defined.

(** X10.  An event whose delta is a record without [content] (a role-only
    opening delta, the empty delta that carries the finish reason) gives
    no chunk and no warning. *)
Theorem delta_without_content_is_silent line rest record choice others entries :
  is_event_line line = true ->
  Json.loads (drop_chars 6 line) = Ok (VDict record) ->
  dict_get "choices" record = Some (VList (VDict choice :: others)) ->
  dict_get "delta" choice = Some (VDict entries) ->
  dict_get "content" entries = None ->
  OpenAIService.decode (line :: rest) = OpenAIService.decode rest.
Proof.
  unfold is_event_line. intros Hline Hloads Hchoices Hdelta Hcontent.
  apply andb_true_iff in Hline as [Hline Hp].
  apply andb_true_iff in Hline as [He Hs].
  apply negb_true_iff in He, Hs.
  rewrite decode_cons_event by assumption.
  unfold OpenAIService.chunk_of, mbind, Result_bind.
  rewrite Hloads. cbn [getitem]. rewrite Hchoices. cbn [getitem0 getitem].
  rewrite Hdelta. cbn [contains]. rewrite Hcontent.
  rewrite bool_decide_eq_false_2 by (intros [? ?]; discriminate).
  reflexivity.
Qed.

Lemma delta_without_content_is_silent_witness :
  OpenAIService.decode [Scenario.role_event; content_event "hi"]
  = OpenAIService.decode [content_event "hi"].
Proof.
  apply (delta_without_content_is_silent Scenario.role_event [content_event "hi"]
           [("choices", VList [VDict [("delta", VDict [("role", VStr "assistant")])]])]
           [("delta", VDict [("role", VStr "assistant")])] []
           [("role", VStr "assistant")]); vm_compute; reflexivity.
Defined.

(* ===================================================================== *)
(** ** Further properties of the agent *)
(* ===================================================================== *)

(** X11.  An agent without a prompt of its own, and of a type the table
    of default prompts does not list, gets the prompt of the general
    type. *)
Theorem system_prompt_falls_back_to_general self :
  Agent.system_prompt self = None ->
  Agent.type self <> "general" ->
  Agent.type self <> "developer" ->
  Agent.type self <> "devops" ->
  Agent.type self <> "data_analyst" ->
  Agent.get_system_prompt self = "You are a helpful AI assistant.".
Proof.
  intros Hnone H1 H2 H3 H4. unfold Agent.get_system_prompt. rewrite Hnone.
  unfold DEFAULT_SYSTEM_PROMPTS.
  rewrite (lookup_insert_ne _ "general" (Agent.type self)) by congruence.
  rewrite (lookup_insert_ne _ "developer" (Agent.type self)) by congruence.
  rewrite (lookup_insert_ne _ "devops" (Agent.type self)) by congruence.
  rewrite (lookup_insert_ne _ "data_analyst" (Agent.type self)) by congruence.
  rewrite lookup_empty. reflexivity.
Qed.

Lemma system_prompt_falls_back_to_general_witness :
  Agent.get_system_prompt Scenario.custom_agent = "You are a helpful AI assistant.".
Proof.
  apply (system_prompt_falls_back_to_general Scenario.custom_agent);
    [reflexivity | discriminate..].
Defined.

(** X12.  The client an agent builds takes the constructor's defaults of
    three attempts and sixty seconds, whatever the configuration asks for:
    of the configured client settings only the key, the base URL and the
    default model reach it. *)
Theorem agent_client_ignores_configured_limits self w service :
  (Agent.ai_service self w).1 = Ok service ->
  OpenAIService.max_retries service = 3 /\
  OpenAIService.timeout service = 60 /\
  OpenAIService.default_model service = Config.default_model (World.config w).
Proof.
  unfold Agent.ai_service, mbind, M_bind, gets, raise. cbn beta iota.
  destruct (String.eqb _ "openai"); [| discriminate].
  unfold OpenAIService.init_default, OpenAIService.init, mbind, M_bind, gets, raise,
    mret, M_ret.
  destruct (or_opt None _) as [key |]; [| discriminate].
  destruct (String.eqb key EmptyString); [discriminate |].
  cbn. intros H. inversion H; subst. cbn. auto.
Qed.

Lemma agent_client_ignores_configured_limits_witness :
  Config.max_retries (World.config Scenario.world_patient) = 10 /\
  OpenAIService.max_retries
    (OpenAIService.Build "sk-test" "https://api.openai.com/v1" 60 3 "gpt-4") = 3.
Proof.
  split; [reflexivity |].
  apply (agent_client_ignores_configured_limits Scenario.default_agent
           Scenario.world_patient).
  vm_compute. reflexivity.
Defined.

(** X13.  When the client cannot be built (a provider other than OpenAI, no
    API key), [chat] raises that error in either mode before anything is
    sent or written: the world is as it was. *)
Theorem chat_without_client self message history stream w e :
  (Agent.ai_service self w).1 = Raise e ->
  Agent.chat self message history stream w = (Raise e, w).
Proof.
  intros H. pose proof (ai_service_keeps_world self w) as Hw.
  unfold Agent.chat, Agent.chat_stream, Agent.chat_complete, mbind, M_bind.
  destruct stream; cbn beta iota;
    destruct (Agent.ai_service self w) as [r w0]; cbn in H, Hw; subst; reflexivity.
Qed.

Lemma chat_without_client_witness :
  Agent.chat Scenario.foreign_agent "hello" None true
    (Scenario.world Scenario.streaming [])
  = (Raise (ValueError "Unsupported AI provider"),
     Scenario.world Scenario.streaming []).
Proof.
  apply (chat_without_client Scenario.foreign_agent "hello" None true
           (Scenario.world Scenario.streaming [])).
  vm_compute. reflexivity.
Defined.

(** X14.  For an agent that names no provider, the client can be built
    exactly when the default provider is OpenAI and the configuration
    validates. *)
Theorem client_builds_iff_config_validates self w :
  Agent.provider self = None ->
  (exists service, (Agent.ai_service self w).1 = Ok service) <->
  Config.default_provider (World.config w) = "openai" /\
  Config.validate (World.config w) = true.
Proof.
  intros Hprov.
  unfold Agent.ai_service, mbind, M_bind, gets, raise. cbn beta iota.
  rewrite Hprov. cbn [or_str]. unfold Config.validate.
  destruct (String.eqb (Config.default_provider (World.config w)) "openai") eqn:Hp.
  - apply String.eqb_eq in Hp.
    unfold OpenAIService.init_default, OpenAIService.init, mbind, M_bind, gets, raise,
      mret, M_ret, or_opt. cbn [truthy_str].
    destruct (Config.openai_api_key (World.config w)) as [key |].
    + destruct (String.eqb key EmptyString); cbn; split.
      * intros [service H]. discriminate.
      * intros [_ H]. discriminate.
      * intros _. auto.
      * intros _. eexists. reflexivity.
    + cbn. split; [intros [service H]; discriminate | intros [_ H]; discriminate].
  - apply String.eqb_neq in Hp. cbn. split.
    + intros [service H]. discriminate.
    + intros [H _]. contradiction.
Qed.

Lemma client_builds_iff_config_validates_witness :
  exists service,
    (Agent.ai_service Scenario.default_agent (Scenario.world Scenario.flaky [])).1
    = Ok service.
Proof.
  apply (client_builds_iff_config_validates Scenario.default_agent
           (Scenario.world Scenario.flaky []) eq_refl).
  split; reflexivity.
Defined.





(* ===================================================================== *)
(** ** Further properties of the REPL session *)
(* ===================================================================== *)





(** A line of white space only is passed over without a trace, and
    an interrupt at the prompt only prints the hint: in both cases the
    session object is untouched and the loop reads on. *)
Lemma idle_inputs_are_passed_over st text rest :
  strip text = EmptyString ->
  REPLSession.loop (Line text :: rest) st = REPLSession.loop rest st /\
  REPLSession.loop (Interrupt :: rest) st
  = REPLSession.loop rest
      (REPLSession.BuildState (REPLSession.self st)
         (World.set_console (fun l => l ++ [MsgInterruptHint]) (REPLSession.world st))).
Proof.
  intros Hblank. split.
  - cbn [REPLSession.loop]. unfold mbind, M_bind, try.
    cbn [REPLSession.iteration]. rewrite Hblank. destruct st; reflexivity.
  - destruct st; reflexivity.
Qed.





(** X20.  [/clear] followed by [/history] prints the empty-history
    message: the transcript is emptied, the agent and the session
    identifier stay. *)
Theorem clear_then_history st clear history p1 a1 p2 a2 :
  split clear = p1 :: a1 -> lower p1 = "/clear" ->
  split history = p2 :: a2 -> lower p2 = "/history" ->
  (REPLSession.handle_command clear;; REPLSession.handle_command history) st
  = (Ok tt,
     REPLSession.BuildState
       (REPLSession.Build (REPLSession.agent (REPLSession.self st))
          (REPLSession.session_id (REPLSession.self st)) [])
       (World.set_console (fun l => l ++ [MsgNoMessagesYet])
          (World.set_console (fun l => l ++ [MsgCleared]) (REPLSession.world st)))).
Proof.
  intros Hs1 Hc1 Hs2 Hc2. unfold mbind, M_bind, REPLSession.handle_command.
  rewrite Hs1, Hc1, Hs2, Hc2. destruct st as [s w]. reflexivity.
Qed.

Lemma clear_then_history_witness :
  (REPLSession.handle_command "/clear";; REPLSession.handle_command "/history")
    (Scenario.running Scenario.down)
  = (Ok tt,
     REPLSession.BuildState
       (REPLSession.Build Scenario.default_agent "session-0" [])
       (World.set_console (fun l => l ++ [MsgNoMessagesYet])
          (World.set_console (fun l => l ++ [MsgCleared])
             (Scenario.world Scenario.down [Scenario.default_row])))).
Proof.
  apply (clear_then_history (Scenario.running Scenario.down) "/clear" "/history"
           "/clear" [] "/history" []); reflexivity.
Defined.




(** X22.  Saving and reading back: for a transcript that is not empty and
    a session identifier no row has yet, [save_session] stores a row under
    that identifier, for the active agent, whose messages are the
    transcript's role and content pairs in order; every other row stays as
    it was, and the session object is untouched. *)
Theorem save_session_round_trip st :
  let s := REPLSession.self st in
  let w := REPLSession.world st in
  REPLSession.messages s <> [] ->
  World.sessions w !! REPLSession.session_id s = None ->
  let out := REPLSession.save_session st in
  let table := World.sessions (REPLSession.world out.2) in
  out.1 = Ok tt /\
  REPLSession.self out.2 = s /\
  (exists row,
      table !! REPLSession.session_id s = Some row /\
      SessionModel.id row = REPLSession.session_id s /\
      SessionModel.agent_id row = Agent.id (REPLSession.agent s) /\
      (fun m => (m.1.1, m.1.2)) <$> SessionModel.messages row
      = (fun msg => (Message.role msg, Message.content msg)) <$> REPLSession.messages s) /\
  (forall k, k <> REPLSession.session_id s -> table !! k = World.sessions w !! k).
Proof.
  cbn zeta. intros Hne Hfresh. rewrite save_session_run. cbn zeta.
  cbn [fst snd REPLSession.self REPLSession.world].
  destruct (REPLSession.messages (REPLSession.self st)) as [| m ms] eqn:Hm;
    [congruence |].
  rewrite Hfresh. cbn [World.sessions World.set_console World.set_sessions].
  split; [reflexivity |]. split; [reflexivity |]. split.
  - eexists. split; [apply lookup_insert_eq |]. cbn [SessionModel.id
      SessionModel.agent_id SessionModel.messages].
    split; [reflexivity |]. split; [reflexivity |].
    rewrite <- list_fmap_compose. reflexivity.
  - intros k Hk. apply lookup_insert_ne. congruence.
Qed.

Lemma save_session_round_trip_witness :
  (REPLSession.save_session (Scenario.running Scenario.down)).1 = Ok tt.
Proof.
  destruct (save_session_round_trip (Scenario.running Scenario.down)) as (H & _).
  - discriminate.
  - vm_compute. reflexivity.
  - exact H.
Defined.



(** What talks to the console only: the requests recorded, the agents
    table and the configuration stay as they are. *)
Lemma console_print_frame m w :
  let w' := (console_print m w).2 in
  World.calls w' = World.calls w /\
  World.agents w' = World.agents w /\
  World.config w' = World.config w.
Proof. cbn zeta. unfold console_print. destruct (renders w m); auto. Qed.

Lemma print_messages_frame transcript :
  forall w,
    let w' := (REPLSession.print_messages transcript w).2 in
    World.calls w' = World.calls w /\
    World.agents w' = World.agents w /\
    World.config w' = World.config w.
Proof.
  induction transcript as [| msg rest IH]; intros w; cbn zeta; [auto |].
  cbn [REPLSession.print_messages]. unfold mbind, M_bind.
  pose proof (console_print_frame (MsgHistoryRole (Message.role msg)) w) as H1.
  cbn zeta in H1.
  destruct (console_print (MsgHistoryRole (Message.role msg)) w) as [[[] | e] w1];
    cbn [snd] in H1 |- *; [| exact H1].
  pose proof (console_print_frame (MsgHistoryContent (Message.content msg)) w1) as H2.
  cbn zeta in H2.
  destruct (console_print (MsgHistoryContent (Message.content msg)) w1)
    as [[[] | e] w2]; cbn [snd] in H2 |- *.
  - specialize (IH w2). cbn zeta in IH. intuition congruence.
  - intuition congruence.
Qed.

Lemma lift_frame {A} (m : M World.t A) st :
  REPLSession.world (REPLSession.lift m st).2 = (m (REPLSession.world st)).2.
Proof. unfold REPLSession.lift. destruct (m (REPLSession.world st)). reflexivity. Qed.

Lemma print_history_frame st :
  let w' := REPLSession.world (REPLSession.print_history st).2 in
  World.calls w' = World.calls (REPLSession.world st) /\
  World.agents w' = World.agents (REPLSession.world st) /\
  World.config w' = World.config (REPLSession.world st).
Proof.
  cbn zeta. destruct st as [s w].
  unfold REPLSession.print_history, mbind, M_bind, gets.
  cbn [REPLSession.self REPLSession.world].
  destruct (REPLSession.messages s) as [| m ms]; [auto |].
  assert (Htitle : REPLSession.lift (console_print MsgHistoryTitle)
                     (REPLSession.BuildState s w)
                   = (Ok tt,
                      REPLSession.BuildState s
                        (World.set_console (fun l => l ++ [MsgHistoryTitle]) w)))
    by reflexivity.
  rewrite Htitle, lift_frame. cbn [REPLSession.world].
  pose proof (print_messages_frame (m :: ms)
                (World.set_console (fun l => l ++ [MsgHistoryTitle]) w)) as H.
  cbn zeta in H. exact H.
Qed.

Lemma save_session_frame st :
  let w' := REPLSession.world (REPLSession.save_session st).2 in
  World.calls w' = World.calls (REPLSession.world st) /\
  World.agents w' = World.agents (REPLSession.world st) /\
  World.config w' = World.config (REPLSession.world st).
Proof.
  cbn zeta. rewrite save_session_run. cbn zeta. cbn [snd REPLSession.world].
  destruct (REPLSession.messages (REPLSession.self st)); [auto |].
  destruct (World.sessions (REPLSession.world st) !! _); auto.
Qed.

Lemma auto_save_frame st :
  let w' := REPLSession.world (REPLSession.auto_save st).2 in
  World.calls w' = World.calls (REPLSession.world st) /\
  World.agents w' = World.agents (REPLSession.world st) /\
  World.config w' = World.config (REPLSession.world st).
Proof.
  cbn zeta. rewrite auto_save_run. cbn zeta.
  destruct (_ && _)%bool; [apply save_session_frame | auto].
Qed.

(** X24.  No command contacts the provider or changes the stored agents
    or the configuration, whether it returns or raises: commands talk to
    the console and, for [/save] and an agent switch, to the sessions
    table only. *)
Theorem commands_stay_local command st :
  let w' := REPLSession.world (REPLSession.handle_command command st).2 in
  World.calls w' = World.calls (REPLSession.world st) /\
  World.agents w' = World.agents (REPLSession.world st) /\
  World.config w' = World.config (REPLSession.world st).
Proof.
  cbn zeta. unfold REPLSession.handle_command.
  destruct (split command) as [| part0 args]; [auto |].
  destruct (_ || _)%bool; [auto |].
  destruct (String.eqb _ "/help"); [auto |].
  destruct (String.eqb _ "/clear"); [auto |].
  destruct (String.eqb _ "/save"); [apply save_session_frame |].
  destruct (String.eqb _ "/history"); [apply print_history_frame |].
  destruct (String.eqb _ "/agent").
  2: { rewrite lift_frame. apply console_print_frame. }
  destruct args as [| new_agent_name args].
  { unfold mbind, M_bind, gets. rewrite lift_frame. apply console_print_frame. }
  unfold mbind, M_bind, REPLSession.lift, AgentManager.get_agent, gets, mret, M_ret.
  unfold mbind, M_bind. cbn beta iota.
  destruct (List.find _ _) as [row |].
  2: { cbn [fmap option_fmap option_map]. unfold console_print.
       destruct (renders _ _); auto. }
  cbn [fmap option_fmap option_map].
  pose proof (auto_save_frame
                (REPLSession.BuildState (REPLSession.self st) (REPLSession.world st)))
    as Hframe.
  cbn zeta in Hframe.
  destruct (auto_save_keeps_self
              (REPLSession.BuildState (REPLSession.self st) (REPLSession.world st)))
    as (w1 & Hw1).
  rewrite Hw1 in Hframe |- *. cbn [snd REPLSession.world] in Hframe.
  unfold AgentManager.uuid4, REPLSession.set_self, modify, console_print.
  cbn [REPLSession.self REPLSession.world fst snd].
  destruct (renders _ _); exact Hframe.
Qed.

(** X25.  The transcript of a session that starts empty, as the
    constructor leaves it, only ever holds user and assistant messages,
    whatever is typed and however the provider answers: the history handed
    to the agent never contains a system message. *)
Theorem repl_transcript_is_conversational inputs agent session_id w :
  let out :=
    REPLSession.run inputs
      (REPLSession.BuildState (REPLSession.Build agent session_id []) w) in
  conversational (REPLSession.messages (REPLSession.self out.2)) /\
  Forall (fun m => Message.role m <> "system")
    (REPLSession.messages (REPLSession.self out.2)).
Proof.
  cbn zeta.
  set (st := REPLSession.BuildState (REPLSession.Build agent session_id []) w).
  assert (H : conversational
                (REPLSession.messages (REPLSession.self (REPLSession.run inputs st).2))).
  { destruct (renders (REPLSession.world st)
                (MsgWelcome (Agent.name (REPLSession.agent (REPLSession.self st)))
                            (Agent.type (REPLSession.agent (REPLSession.self st)))))
      eqn:Hwelcome.
    - rewrite run_after_welcome by exact Hwelcome. cbn zeta.
      cbn [snd REPLSession.self]. apply loop_conversational. constructor.
    - rewrite run_without_welcome by exact Hwelcome. constructor. }
  split; [exact H | apply conversational_no_system; exact H].
Qed.

(** X26.  Only [/clear] and [/agent] can change the session object: after
    any other command, known or not, the active agent, the session
    identifier and the transcript are what they were. *)
Theorem other_commands_keep_session command st part0 args :
  split command = part0 :: args ->
  lower part0 <> "/clear" ->
  lower part0 <> "/agent" ->
  REPLSession.self (REPLSession.handle_command command st).2 = REPLSession.self st.
Proof.
  intros Hsplit Hclear Hagent. unfold REPLSession.handle_command. rewrite Hsplit.
  apply String.eqb_neq in Hclear, Hagent. rewrite Hclear, Hagent.
  destruct (_ || _)%bool; [reflexivity |].
  destruct (String.eqb _ "/help"); [reflexivity |].
  destruct (String.eqb _ "/save"); [rewrite save_session_run; reflexivity |].
  destruct (String.eqb _ "/history"); [apply print_history_keeps_self |].
  apply lift_keeps_self.
Qed.

Lemma other_commands_keep_session_witness :
  REPLSession.self
    (REPLSession.handle_command "/frobnicate now" (Scenario.running Scenario.down)).2
  = Scenario.session.
Proof.
  apply (other_commands_keep_session "/frobnicate now"
           (Scenario.running Scenario.down) "/frobnicate" ["now"]);
    [reflexivity | vm_compute; discriminate | vm_compute; discriminate].
Defined.

(** X27.  Closing a session that was never saved, once its welcome is
    out: if, when the loop ends, no row carries the session's identifier,
    then [run] stores the transcript exactly when auto-save is on and the
    transcript is not empty, and otherwise leaves the sessions table as the
    loop left it. *)
Theorem close_persists_unsaved_session inputs st :
  let s := REPLSession.self st in
  let welcome :=
    MsgWelcome (Agent.name (REPLSession.agent s)) (Agent.type (REPLSession.agent s)) in
  let started :=
    REPLSession.BuildState s
      (World.set_console (fun l => l ++ [welcome]) (REPLSession.world st)) in
  let left := (REPLSession.loop inputs started).2 in
  let s1 := REPLSession.self left in
  let w1 := REPLSession.world left in
  renders (REPLSession.world st) welcome = true ->
  World.sessions w1 !! REPLSession.session_id s1 = None ->
  let table := World.sessions (REPLSession.world (REPLSession.run inputs st).2) in
  (Config.auto_save (World.config w1) = true /\ REPLSession.messages s1 <> [] ->
   SessionModel.messages <$> (table !! REPLSession.session_id s1)
   = Some ((fun msg => (Message.role msg, Message.content msg, World.utcnow w1))
             <$> REPLSession.messages s1)) /\
  (~ (Config.auto_save (World.config w1) = true /\ REPLSession.messages s1 <> []) ->
   table = World.sessions w1).
Proof.
  cbn zeta. intros Hwelcome Hfresh. rewrite run_after_welcome by exact Hwelcome.
  cbn zeta. cbn [snd REPLSession.world World.sessions World.set_console].
  apply close_saves_fresh_session. exact Hfresh.
Qed.

Lemma close_persists_unsaved_session_witness :
  SessionModel.messages
    <$> (World.sessions
           (REPLSession.world
              (REPLSession.run [Line "/help"; Line "/exit"]
                 (Scenario.running Scenario.down)).2)
         !! "session-0")
  = Some [("user", "hi", "2024-01-01T00:00:00");
          ("assistant", "hi there", "2024-01-01T00:00:00")].
Proof.
  destruct (close_persists_unsaved_session [Line "/help"; Line "/exit"]
              (Scenario.running Scenario.down)) as [Hyes _].
  - reflexivity.
  - vm_compute. reflexivity.
  - apply Hyes. split; [reflexivity | vm_compute; discriminate].
Defined.

(* ===================================================================== *)
(** ** Further properties of the agent manager and of the start-up *)
(* ===================================================================== *)

Lemma find_app_none {A} (f : A -> bool) (l1 l2 : list A) :
  List.find f l1 = None -> List.find f (l1 ++ l2) = List.find f l2.
Proof.
  induction l1 as [| x l1 IH]; [reflexivity |]. cbn.
  destruct (f x); [discriminate | exact IH].
Qed.

Lemma find_name_none name rows :
  List.find (fun row => String.eqb (AgentModel.name row) name) rows = None ->
  ~ In name (AgentModel.name <$> rows).
Proof.
  induction rows as [| row rows IH]; cbn; [auto |].
  destruct (String.eqb (AgentModel.name row) name) eqn:Hname; [discriminate |].
  apply String.eqb_neq in Hname. intros Hfind [H | H]; [congruence |].
  exact (IH Hfind H).
Qed.

(** Creating an agent under a name that is free and looking the name
    up: the agent comes back, with the type given and the identifier
    drawn; lookups of other names answer as before, and names stay
    unique. *)
Lemma create_agent_then_get name type w :
  List.find (fun row => String.eqb (AgentModel.name row) name) (World.agents w) = None ->
  let out := AgentManager.create_agent name type w in
  exists agent,
    out.1 = Ok agent /\
    Agent.name agent = name /\
    Agent.type agent = type /\
    Agent.id agent = World.uuids w (World.uuid_count w) /\
    AgentManager.get_agent name out.2 = (Ok (Some agent), out.2) /\
    (forall other, other <> name ->
       (AgentManager.get_agent other out.2).1 = (AgentManager.get_agent other w).1) /\
    (NoDup (agent_names w) -> NoDup (agent_names out.2)).
Proof.
  intros Hfree. cbn zeta.
  unfold AgentManager.create_agent, AgentManager.get_agent, AgentManager.uuid4, modify,
    mbind, M_bind, gets, mret, M_ret.
  unfold mbind, M_bind. cbn beta iota. rewrite Hfree.
  cbn [fmap option_fmap option_map fst snd World.agents World.set_agents
       World.set_uuid_count].
  eexists. split; [reflexivity |]. repeat split.
  - rewrite (find_app_none _ _ _ Hfree). cbn. rewrite String.eqb_refl. reflexivity.
  - intros other Hother. f_equal. f_equal.
    destruct (List.find (fun row => String.eqb (AgentModel.name row) other)
                (World.agents w)) as [row |] eqn:Hfind.
    + clear -Hfind. induction (World.agents w) as [| x l IH]; [discriminate |].
      cbn in *. destruct (String.eqb (AgentModel.name x) other); [exact Hfind | auto].
    + rewrite (find_app_none _ _ _ Hfind). cbn.
      destruct (String.eqb name other) eqn:Heq; [| reflexivity].
      apply String.eqb_eq in Heq. congruence.
  - unfold agent_names.
    cbn [World.agents World.set_agents World.set_uuid_count]. rewrite fmap_app. cbn.
    intros Hnodup. apply NoDup_app. repeat split.
    + exact Hnodup.
    + intros x Hx Hin. apply list_elem_of_In in Hx. apply list_elem_of_In in Hin.
      cbn in Hin. destruct Hin as [<- | []].
      exact (find_name_none _ _ Hfree Hx).
    + apply NoDup_singleton.
Qed.


(** Creating an agent under a name that is taken raises
    [ValueError] and leaves the world, the agents table included, as it
    was. *)
Lemma create_agent_rejects_duplicate name type w row :
  List.find (fun row => String.eqb (AgentModel.name row) name) (World.agents w)
  = Some row ->
  exists msg,
    AgentManager.create_agent name type w = (Raise (ValueError msg), w).
Proof.
  intros Htaken.
  unfold AgentManager.create_agent, AgentManager.get_agent, mbind, M_bind, gets, mret,
    M_ret, raise.
  unfold mbind, M_bind. cbn beta iota. rewrite Htaken. eexists. reflexivity.
Qed.


(** X28.  Creating an agent and looking its name up.  Under a free name
    the agent is stored with the type given and the identifier drawn, a
    lookup of the name returns it, lookups of other names answer as before
    and names stay unique; under a name already taken [ValueError] is
    raised and the world, the agents table included, is left as it was. *)
Theorem create_agent_by_name name type w :
  let out := AgentManager.create_agent name type w in
  match List.find (fun row => String.eqb (AgentModel.name row) name) (World.agents w)
  with
  | Some _ => exists msg, out = (Raise (ValueError msg), w)
  | None =>
      exists agent,
        out.1 = Ok agent /\
        Agent.name agent = name /\
        Agent.type agent = type /\
        Agent.id agent = World.uuids w (World.uuid_count w) /\
        AgentManager.get_agent name out.2 = (Ok (Some agent), out.2) /\
        (forall other, other <> name ->
           (AgentManager.get_agent other out.2).1 = (AgentManager.get_agent other w).1) /\
        (NoDup (agent_names w) -> NoDup (agent_names out.2))
  end.
Proof.
  cbn zeta.
  destruct (List.find _ (World.agents w)) as [row |] eqn:Hfind.
  - exact (create_agent_rejects_duplicate name type w row Hfind).
  - exact (create_agent_then_get name type w Hfind).
Qed.

Lemma find_name_some name rows row :
  List.find (fun row => String.eqb (AgentModel.name row) name) rows = Some row ->
  In row rows /\ AgentModel.name row = name.
Proof.
  intros H. apply find_some in H as [Hin Hname]. apply String.eqb_eq in Hname. auto.
Qed.

Lemma unique_name_row rows :
  NoDup (AgentModel.name <$> rows) ->
  forall r1 r2, In r1 rows -> In r2 rows ->
                AgentModel.name r1 = AgentModel.name r2 -> r1 = r2.
Proof.
  induction rows as [| row rows IH]; cbn; intros Hnodup r1 r2 H1 H2 Hname;
    [contradiction |].
  apply NoDup_cons in Hnodup as [Hnotin Hnodup].
  destruct H1 as [<- | H1], H2 as [<- | H2]; [reflexivity | | |].
  - exfalso. apply Hnotin. rewrite Hname. apply list_elem_of_In.
    apply in_map. exact H2.
  - exfalso. apply Hnotin. rewrite <- Hname. apply list_elem_of_In.
    apply in_map. exact H1.
  - apply IH; assumption.
Qed.

(** X30.  Deleting by name, with names unique as the table keeps them: a
    name that is not stored gives [False] and changes nothing; a stored
    name gives [True], after which the name is no longer found, no agent
    has been added, and names are still unique. *)
Theorem delete_agent_removes_name name w :
  NoDup (agent_names w) ->
  let out := AgentManager.delete_agent name w in
  match List.find (fun row => String.eqb (AgentModel.name row) name) (World.agents w)
  with
  | None => out = (Ok false, w)
  | Some _ =>
      out.1 = Ok true /\
      AgentManager.get_agent name out.2 = (Ok None, out.2) /\
      (forall row, In row (World.agents out.2) -> In row (World.agents w)) /\
      NoDup (agent_names out.2)
  end.
Proof.
  intros Hnodup. cbn zeta.
  unfold AgentManager.delete_agent, AgentManager.get_agent, modify, mbind, M_bind,
    gets, mret, M_ret.
  unfold mbind, M_bind. cbn beta iota.
  destruct (List.find _ (World.agents w)) as [found |] eqn:Hfind; [| reflexivity].
  cbn [fst snd World.agents World.set_agents].
  apply find_name_some in Hfind as [Hin Hname].
  split; [reflexivity |]. split; [| split].
  - destruct (List.find _ (List.filter _ _)) as [row |] eqn:Hleft; [| reflexivity].
    exfalso. apply find_name_some in Hleft as [Hrow Hrowname].
    apply filter_In in Hrow as [Hrow Hid].
    assert (row = found) by (apply (unique_name_row _ Hnodup); congruence).
    subst row. rewrite String.eqb_refl in Hid. discriminate.
  - intros row Hrow. apply filter_In in Hrow as [Hrow _]. exact Hrow.
  - unfold agent_names in *. cbn [World.agents World.set_agents].
    clear -Hnodup. induction (World.agents w) as [| row rows IH]; [constructor |].
    cbn in Hnodup |- *. apply NoDup_cons in Hnodup as [Hnotin Hnodup].
    destruct (negb _); [| apply IH; exact Hnodup].
    cbn. apply NoDup_cons. split; [| apply IH; exact Hnodup].
    intros Hin. apply Hnotin. apply list_elem_of_In in Hin. apply list_elem_of_In.
    apply in_map_iff in Hin as (r & Hr & Hrin). apply filter_In in Hrin as [Hrin _].
    apply in_map_iff. eauto.
Qed.

Lemma delete_agent_removes_name_witness :
  (AgentManager.delete_agent "coder"
     (Scenario.world Scenario.down [Scenario.default_row; Scenario.coder_row])).1
  = Ok true.
Proof.
  pose proof (delete_agent_removes_name "coder"
                (Scenario.world Scenario.down [Scenario.default_row; Scenario.coder_row]))
    as H.
  cbn zeta in H.
  assert (Hnodup : NoDup (agent_names
                            (Scenario.world Scenario.down
                               [Scenario.default_row; Scenario.coder_row]))).
  { repeat constructor; cbn; intros Hin; apply list_elem_of_In in Hin; cbn in Hin;
      intuition discriminate. }
  specialize (H Hnodup).
  change (List.find (fun row => String.eqb (AgentModel.name row) "coder")
            (World.agents (Scenario.world Scenario.down
                             [Scenario.default_row; Scenario.coder_row])))
    with (Some Scenario.coder_row) in H.
  destruct H as [H _]. exact H.
Defined.



(** X29.  The first start creates the default agent, the next one finds
    it: when the configured default agent is ["default"] and no such agent
    is stored, the constructor stores one of the general type and opens an
    empty session for it; constructed again in the world that results, it
    opens an empty session for the same agent and stores nothing more. *)
Theorem init_creates_default_once w :
  Config.default_agent (World.config w) = "default" ->
  List.find (fun row => String.eqb (AgentModel.name row) "default") (World.agents w)
  = None ->
  let first := REPLSession.init None w in
  let second := REPLSession.init None first.2 in
  exists session session',
    first.1 = Ok session /\
    Agent.name (REPLSession.agent session) = "default" /\
    Agent.type (REPLSession.agent session) = "general" /\
    REPLSession.messages session = [] /\
    agent_names first.2 = agent_names w ++ ["default"] /\
    second.1 = Ok session' /\
    REPLSession.agent session' = REPLSession.agent session /\
    REPLSession.messages session' = [] /\
    World.agents second.2 = World.agents first.2.
Proof.
  intros Hdefault Hfind. cbn zeta.
  assert (Hfirst :
            REPLSession.init None w
            = (Ok (REPLSession.Build
                     (AgentManager._model_to_agent
                        (AgentModel.Build (World.uuids w (World.uuid_count w))
                           "default" "general" None None None None None))
                     (World.uuids w (S (World.uuid_count w))) []),
               World.set_uuid_count S
                 (World.set_agents
                    (fun rows =>
                       rows ++ [AgentModel.Build (World.uuids w (World.uuid_count w))
                                  "default" "general" None None None None None])
                    (World.set_uuid_count S
                       (World.set_console (fun l => l ++ [MsgCreatingDefault]) w))))).
  { unfold REPLSession.init, AgentManager.create_agent, AgentManager.get_agent,
      AgentManager.uuid4, modify, console_print, mbind, M_bind, gets, mret, M_ret.
    unfold mbind, M_bind. cbn beta iota. cbn [or_str]. rewrite Hdefault, Hfind.
    cbn [fmap option_fmap option_map String.eqb Ascii.eqb Bool.eqb].
    unfold mbind, M_bind. cbn beta iota.
    cbn [renders markup_of World.agents World.set_console]. rewrite Hfind.
    reflexivity. }
  rewrite Hfirst. cbn [fst snd].
  do 2 eexists. split; [reflexivity |].
  split; [reflexivity |]. split; [reflexivity |]. split; [reflexivity |].
  split.
  { unfold agent_names. cbn [World.agents World.set_agents World.set_uuid_count].
    rewrite fmap_app. reflexivity. }
  unfold REPLSession.init, AgentManager.get_agent, AgentManager.uuid4, mbind, M_bind,
    gets, mret, M_ret.
  unfold mbind, M_bind. cbn beta iota. cbn [or_str].
  cbn [World.config World.agents World.set_agents World.set_uuid_count
       World.set_console].
  rewrite Hdefault. rewrite (find_app_none _ _ _ Hfind).
  cbn. auto.
Qed.

Lemma init_creates_default_once_witness :
  exists session,
    (REPLSession.init None (Scenario.world Scenario.down [Scenario.coder_row])).1
    = Ok session /\
    Agent.name (REPLSession.agent session) = "default".
Proof.
  destruct (init_creates_default_once (Scenario.world Scenario.down [Scenario.coder_row]))
    as (session & session' & H1 & H2 & _); [reflexivity | reflexivity |].
  exists session. split; assumption.
Defined.
